(** * go-ffmpeg: supervised execution of ffprobe / ffmpeg

    A shallow embedding of the package [ffmpeg] (files ffprobe.go and
    ffmpeg.go): the package globals, the option structs, the three
    context-taking entry points with their hand-written race between
    [cmd.Wait()] and [ctx.Done()], the stderr-capturing probe variant, and
    the two output-name helpers.

    The sources hold three revisions of ffmpeg.go.  The embedding
    follows the one with both frame extraction and MP4 conversion; the
    revision without conversion has the same [ExtractingImagesContext]
    up to the names of the path field and of the output-name helper.

    Go strings are [string]; a nil-able pointer is an [option]; [uint] is
    [N].  The Go standard library functions the package calls
    (path/filepath, strings, os/exec, encoding/json) are modelled after
    their Unix implementations, or taken as an oracle where they talk to
    the operating system. *)

From Stdlib Require Import List String Ascii Bool Arith NArith Lia.
From Stdlib Require Import DecimalString.
Import ListNotations.

Local Open Scope string_scope.
Local Open Scope list_scope.

(** ** Go strings as character lists *)

Module GoString.

Definition chars (s : string) : list ascii := list_ascii_of_string s.
Definition of_chars (l : list ascii) : string := string_of_list_ascii l.

End GoString.

Import GoString.

(** ** path/filepath and strings (Unix) *)

(** [os.IsPathSeparator] on Unix. *)
Definition IsPathSeparator (c : ascii) : bool := Ascii.eqb c "/".

Definition isDot (c : ascii) : bool := Ascii.eqb c ".".

(** [strings.HasSuffix]:
    [len(s) >= len(suffix) && s[len(s)-len(suffix):] == suffix]. *)
Definition HasSuffix (s suffix : string) : bool :=
  Nat.leb (String.length suffix) (String.length s) &&
  String.eqb
    (of_chars (skipn (String.length s - String.length suffix) (chars s)))
    suffix.

(** [strings.TrimSuffix]: [s[:len(s)-len(suffix)]] when [s] ends in
    [suffix], [s] unchanged otherwise. *)
Definition TrimSuffix (s suffix : string) : string :=
  if HasSuffix s suffix
  then of_chars (firstn (String.length s - String.length suffix) (chars s))
  else s.

(** The loop of [filepath.Ext], run over the reversed path: [r] is what
    is left of the path read from its end, [acc] is [path[i+1:]].
<<
    for i := len(path) - 1; i >= 0 && !os.IsPathSeparator(path[i]); i-- {
        if path[i] == '.' { return path[i:] }
    }
    return ""
>> *)
Fixpoint ext_scan (r acc : list ascii) : list ascii :=
  match r with
  | [] => []
  | c :: r' =>
      if IsPathSeparator c then []
      else if isDot c then c :: acc
      else ext_scan r' (c :: acc)
  end.

Definition Ext (path : string) : string :=
  of_chars (ext_scan (rev (chars path)) []).

(** First loop of [filepath.Base], on the reversed path: strip trailing
    separators. *)
Fixpoint strip_trailing (r : list ascii) : list ascii :=
  match r with
  | [] => []
  | c :: r' => if IsPathSeparator c then strip_trailing r' else r
  end.

(** Second loop of [filepath.Base], on the reversed path: the last
    element is everything after the last separator. *)
Fixpoint last_element (r acc : list ascii) : list ascii :=
  match r with
  | [] => acc
  | c :: r' => if IsPathSeparator c then acc else last_element r' (c :: acc)
  end.

(** [filepath.Base] (the volume name is empty on Unix). *)
Definition Base (path : string) : string :=
  match path with
  | EmptyString => "."
  | _ =>
      match last_element (strip_trailing (rev (chars path))) [] with
      | [] => "/"
      | e => of_chars e
      end
  end.

(** ** The output-name helpers of ffmpeg.go *)

Definition resolveOutputFrameFileFormat (filePath : string) : string :=
  let baseFileName := Base filePath in
  TrimSuffix baseFileName (Ext baseFileName) ++ "-%03d.jpeg".

Definition resolveOutputMP4FileFormat (filePath : string) : string :=
  let baseFileName := Base filePath in
  TrimSuffix baseFileName (Ext baseFileName) ++ ".mp4".

(** [fmt.Sprintf("%dx%d", w, h)] on two [uint]s. *)
Definition decimal (n : N) : string := NilEmpty.string_of_uint (N.to_uint n).

Definition Sprintf_dxd (w h : N) : string := decimal w ++ "x" ++ decimal h.

(** ** Errors

    Go compares errors by identity ([err == exec.ErrNotFound]).  Errors
    made by the standard library and the operating system are kept apart
    from the three sentinels this package declares: no library call can
    return one of the package's own [errors.New] values. *)

Inductive lib_error : Type :=
| exec_ErrNotFound                              (* os/exec: var ErrNotFound *)
| exec_Error (Name : string) (Err : lib_error)  (* os/exec: &Error{Name, Err} *)
| exec_ExitError (status : N)                   (* os/exec: *ExitError *)
| os_error (msg : string)                       (* *fs.PathError, syscall.Errno, os.ErrProcessDone, ctx.Err() *)
| json_error (msg : string).                    (* encoding/json: *SyntaxError, *UnmarshalTypeError *)

Inductive fmt_arg : Type :=
| arg_string (s : string)
| arg_error (e : lib_error).

Inductive error : Type :=
| ErrFFMPEGNotFound                              (* errors.New("ffmpeg bin not found") *)
| ErrFFProbeNotFound                             (* errors.New("ffprobe bin not found") *)
| ErrTimeout                                     (* errors.New("process timeout exceeded") *)
| fmt_Errorf (format : string) (a : list fmt_arg)
| lib (e : lib_error).

(** [err == exec.ErrNotFound] *)
Definition is_ErrNotFound (e : lib_error) : bool :=
  match e with
  | exec_ErrNotFound => true
  | _ => false
  end.

(** ** The operating system, as seen through os/exec and context *)

Inductive context : Type :=
| context_Background
| context_WithTimeout (parent : context) (timeout : N)
| context_WithCancel (parent : context) (id : nat).

(** Which side of the race is ready first; [Pending] when the context is
    never done and the process never exits. *)
Inductive race : Type := Cancelled | Completed | Pending.

(** One subprocess lifecycle. *)
Record proc : Type := {
  proc_start : option lib_error;        (* fork/exec failure of cmd.Start() *)
  proc_race : context -> race;          (* ctx.Done() against process exit *)
  proc_kill : option lib_error;         (* cmd.Process.Kill() *)
  proc_wait : option lib_error;         (* cmd.Wait() after the process exited by itself *)
  proc_wait_killed : option lib_error;  (* cmd.Wait() after exec.CommandContext killed it *)
  proc_stdout : string;                 (* bytes written to standard output *)
  proc_stderr : string                  (* bytes written to standard error *)
}.

Record world : Type := {
  LookPath : string -> option string;   (* exec.LookPath: the search path *)
  fork_exec : string -> list string -> proc
}.

(** [exec.Cmd], the fields the package relies on. *)
Record Cmd : Type := {
  Path : string;
  Args : list string;
  Err : option lib_error
}.

(** [exec.Command]: a bare name is resolved with [LookPath]; a failed
    lookup is kept in [cmd.Err] as [&Error{name, ErrNotFound}] and is
    what [Start] returns. *)
Definition exec_Command (w : world) (name : string) (arg : list string) : Cmd :=
  if String.eqb (Base name) name then
    match LookPath w name with
    | Some lp => {| Path := lp; Args := name :: arg; Err := None |}
    | None => {| Path := name; Args := name :: arg;
                 Err := Some (exec_Error name exec_ErrNotFound) |}
    end
  else {| Path := name; Args := name :: arg; Err := None |}.

Definition process_of (w : world) (cmd : Cmd) : proc :=
  fork_exec w (Path cmd) (Args cmd).

(** ** Calls into os/exec, and the monad that records them *)

Inductive call : Type :=
| call_Start (cmd : Cmd)
| call_Wait (cmd : Cmd)
| call_Kill (cmd : Cmd)
| call_Run (cmd : Cmd).

(** A call of the package either returns or blocks forever in its
    [select] (or in [cmd.Run]). *)
Inductive res (A : Type) : Type :=
| Ret (a : A)
| Blocked.
Arguments Ret {A} a.
Arguments Blocked {A}.

Definition M (A : Type) : Type := (res A * list call)%type.

Definition ret {A : Type} (a : A) : M A := (Ret a, []).

Definition bind {A B : Type} (m : M A) (f : A -> M B) : M B :=
  match m with
  | (Ret a, t) => let (r, t') := f a in (r, t ++ t')
  | (Blocked, t) => (Blocked, t)
  end.

Definition block {A : Type} : M A := (Blocked, []).

Definition tell (c : call) : M unit := (Ret tt, [c]).

Declare Scope go_scope.
Delimit Scope go_scope with go.
Notation "x <- m ;; k" := (bind m (fun x => k))
  (at level 61, m at next level, right associativity) : go_scope.
Notation "m ;; k" := (bind m (fun _ => k))
  (at level 61, right associativity) : go_scope.
Local Open Scope go_scope.

Definition result {A : Type} (m : M A) : res A := fst m.
Definition calls {A : Type} (m : M A) : list call := snd m.

(** [cmd.Start()] *)
Definition cmd_Start (w : world) (cmd : Cmd) : M (option lib_error) :=
  tell (call_Start cmd) ;;
  match Err cmd with
  | Some e => ret (Some e)
  | None => ret (proc_start (process_of w cmd))
  end.

(** [go func() { done <- cmd.Wait() }()] *)
Definition go_Wait (cmd : Cmd) : M unit := tell (call_Wait cmd).

(** The two cases of the [select]. *)
Inductive select_case : Type :=
| case_ctx_Done
| case_done (err : option lib_error).

Definition select_ctx_done (w : world) (ctx : context) (cmd : Cmd) : M select_case :=
  match proc_race (process_of w cmd) ctx with
  | Cancelled => ret case_ctx_Done
  | Completed => ret (case_done (proc_wait (process_of w cmd)))
  | Pending => block
  end.

(** [cmd.Process.Kill()] *)
Definition Process_Kill (w : world) (cmd : Cmd) : M (option lib_error) :=
  tell (call_Kill cmd) ;;
  ret (proc_kill (process_of w cmd)).

(** [outputBuf.Bytes()] once the process is done. *)
Definition outputBuf (w : world) (cmd : Cmd) : string :=
  proc_stdout (process_of w cmd).

(** [stdErr.String()] after [cmd.Run()]: empty when no process ran. *)
Definition stdErr_String (w : world) (cmd : Cmd) : string :=
  match Err cmd, proc_start (process_of w cmd) with
  | None, None => proc_stderr (process_of w cmd)
  | _, _ => ""
  end.

(** [cmd.Run()] of a command made with [exec.CommandContext]: [Start],
    then [Wait]; the library itself kills the process when [ctx] is done. *)
Definition cmd_Run (w : world) (ctx : context) (cmd : Cmd) : M (option lib_error) :=
  tell (call_Run cmd) ;;
  match Err cmd with
  | Some e => ret (Some e)
  | None =>
      match proc_start (process_of w cmd) with
      | Some e => ret (Some e)
      | None =>
          match proc_race (process_of w cmd) ctx with
          | Completed => ret (proc_wait (process_of w cmd))
          | Cancelled => ret (proc_wait_killed (process_of w cmd))
          | Pending => block
          end
      end
  end.

(** ** ffmpeg.go: options and package globals *)

Record ExtractingImagesOption : Type := {
  FrameRate : string;
  OutputWidth : option N;       (* *uint *)
  OutputHeight : option N;      (* *uint *)
  FilePath : string
}.

Record MP4ConvertOption : Type := {
  Overwrite : bool;
  filePath : string
}.

(** The package-level variables of ffprobe.go and ffmpeg.go. *)
Record globals : Type := {
  ffprobeBinPath : string;
  ffmpegBinPath : string;
  extractingImageOption : option ExtractingImagesOption;
  mp4ConvertOption : option MP4ConvertOption
}.

Definition init : globals :=
  {| ffprobeBinPath := "ffprobe";
     ffmpegBinPath := "ffmpeg";
     extractingImageOption := None;
     mp4ConvertOption := None |}.

Definition SetFFProbeBinPath (newBinPath : string) (g : globals) : globals :=
  {| ffprobeBinPath := newBinPath;
     ffmpegBinPath := ffmpegBinPath g;
     extractingImageOption := extractingImageOption g;
     mp4ConvertOption := mp4ConvertOption g |}.

Definition SetFFMPEGBinPath (newBinPath : string) (g : globals) : globals :=
  {| ffprobeBinPath := ffprobeBinPath g;
     ffmpegBinPath := newBinPath;
     extractingImageOption := extractingImageOption g;
     mp4ConvertOption := mp4ConvertOption g |}.

Definition NewExtractingImagesOption
    (opt : option ExtractingImagesOption) (g : globals) : globals :=
  {| ffprobeBinPath := ffprobeBinPath g;
     ffmpegBinPath := ffmpegBinPath g;
     extractingImageOption := opt;
     mp4ConvertOption := mp4ConvertOption g |}.

Definition DefaultExtractingImagesOption (filePath : string) (g : globals) : globals :=
  NewExtractingImagesOption
    (Some {| FrameRate := "1";
             OutputWidth := None;
             OutputHeight := None;
             FilePath := filePath |}) g.

Definition NewMP4ConvertOption
    (opt : option MP4ConvertOption) (g : globals) : globals :=
  {| ffprobeBinPath := ffprobeBinPath g;
     ffmpegBinPath := ffmpegBinPath g;
     extractingImageOption := extractingImageOption g;
     mp4ConvertOption := opt |}.

Definition DefaultMP4ConvertOption (filePath' : string) (g : globals) : globals :=
  NewMP4ConvertOption (Some {| Overwrite := true; filePath := filePath' |}) g.

(** ** ffmpeg.go: frame extraction *)

Definition ExtractingImagesContext (w : world) (g : globals) (ctx : context)
  : M (option error) :=
  match extractingImageOption g with
  | None => ret (Some (fmt_Errorf "option not set" []))
  | Some opt =>
      let outputFileFormat := resolveOutputFrameFileFormat (FilePath opt) in
      let args :=
        match OutputWidth opt, OutputHeight opt with
        | Some width, Some height =>
            [ "-i"; FilePath opt;
              "-r"; FrameRate opt;
              "-s"; Sprintf_dxd width height;
              "-f"; "image2";
              outputFileFormat ]
        | _, _ =>
            [ "-i"; FilePath opt;
              "-r"; FrameRate opt;
              "-f"; "image2";
              outputFileFormat ]
        end in
      let cmd := exec_Command w (ffmpegBinPath g) args in
      err <- cmd_Start w cmd ;;
      match err with
      | Some e =>
          if is_ErrNotFound e then ret (Some ErrFFMPEGNotFound)
          else ret (Some (lib e))
      | None =>
          go_Wait cmd ;;
          c <- select_ctx_done w ctx cmd ;;
          match c with
          | case_ctx_Done =>
              err <- Process_Kill w cmd ;;
              match err with
              | None => ret (Some ErrTimeout)
              | Some e => ret (Some (lib e))
              end
          | case_done (Some e) => ret (Some (lib e))
          | case_done None => ret None
          end
      end
  end.

Definition ExtractingImages (w : world) (g : globals) (timeout : N)
  : M (option error) :=
  ExtractingImagesContext w g (context_WithTimeout context_Background timeout).

(** ** ffmpeg.go: conversion to MP4 *)

Definition ConvertToMP4Context (w : world) (g : globals) (ctx : context)
  : M (option error) :=
  match mp4ConvertOption g with
  | None => ret (Some (fmt_Errorf "option not set" []))
  | Some opt =>
      let outputFileFormat := resolveOutputMP4FileFormat (filePath opt) in
      let args := [ "-i"; filePath opt; outputFileFormat ] in
      let args := if Overwrite opt then args ++ ["-y"] else args in
      let cmd := exec_Command w (ffmpegBinPath g) args in
      err <- cmd_Start w cmd ;;
      match err with
      | Some e =>
          if is_ErrNotFound e then ret (Some ErrFFMPEGNotFound)
          else ret (Some (lib e))
      | None =>
          go_Wait cmd ;;
          c <- select_ctx_done w ctx cmd ;;
          match c with
          | case_ctx_Done =>
              err <- Process_Kill w cmd ;;
              match err with
              | None => ret (Some ErrTimeout)
              | Some e => ret (Some (lib e))
              end
          | case_done (Some e) => ret (Some (lib e))
          | case_done None => ret None
          end
      end
  end.

Definition ConvertToMP4 (w : world) (g : globals) (timeout : N)
  : M (option error) :=
  ConvertToMP4Context w g (context_WithTimeout context_Background timeout).

(** ** ffprobe.go

    [ProbeData] (probedata.go) and [json.Unmarshal] are parameters:
    [json_Unmarshal bytes data] is the value [data] points to after the
    call, with the error returned. *)

Section Probe.

Variable ProbeData : Type.
Variable emptyProbeData : ProbeData.      (* ProbeData{} *)
Variable json_Unmarshal : string -> ProbeData -> ProbeData * option lib_error.

Definition GetProbeDataContext
    (w : world) (g : globals) (ctx : context) (filePath : string)
  : M (option ProbeData * option error) :=
  let cmd := exec_Command w (ffprobeBinPath g)
               [ "-v"; "quiet";
                 "-print_format"; "json";
                 "-show_format";
                 "-show_streams";
                 filePath ] in
  err <- cmd_Start w cmd ;;
  match err with
  | Some e =>
      if is_ErrNotFound e then ret (None, Some ErrFFProbeNotFound)
      else ret (None, Some (lib e))
  | None =>
      go_Wait cmd ;;
      c <- select_ctx_done w ctx cmd ;;
      match c with
      | case_ctx_Done =>
          err <- Process_Kill w cmd ;;
          match err with
          | None => ret (None, Some ErrTimeout)
          | Some e => ret (None, Some (lib e))
          end
      | case_done (Some e) => ret (None, Some (lib e))
      | case_done None =>
          let (data, err) := json_Unmarshal (outputBuf w cmd) emptyProbeData in
          match err with
          | Some e => ret (Some data, Some (lib e))
          | None => ret (Some data, None)
          end
      end
  end.

Definition GetProbeData
    (w : world) (g : globals) (filePath : string) (timeout : N)
  : M (option ProbeData * option error) :=
  GetProbeDataContext w g (context_WithTimeout context_Background timeout) filePath.

Definition GetProbeDataOptions
    (w : world) (g : globals) (ctx : context) (file : string)
    (extraFFProbeOptions : list string)
  : M (option ProbeData * option error) :=
  let args := [ "-loglevel"; "fatal";
                "-print_format"; "json";
                "-show_format";
                "-show_streams" ] ++ extraFFProbeOptions in
  let args := args ++ [file] in
  let cmd := exec_Command w (ffprobeBinPath g) args in
  let stdErr := stdErr_String w cmd in
  err <- cmd_Run w ctx cmd ;;
  match err with
  | Some e =>
      ret (None, Some (fmt_Errorf "error running ffprobe [%s] %w"
                         [arg_string stdErr; arg_error e]))
  | None =>
      if negb (String.eqb stdErr "") then
        ret (None, Some (fmt_Errorf "ffprobe error: %s" [arg_string stdErr]))
      else
        let (data, err) := json_Unmarshal (outputBuf w cmd) emptyProbeData in
        match err with
        | Some e =>
            ret (Some data, Some (fmt_Errorf "error unmarshalling output: %w"
                                    [arg_error e]))
        | None => ret (Some data, None)
        end
  end.

End Probe.


(** ** ffmpeg.go, the revision that takes the option as an argument

    In this revision [ExtractingImagesContext] reads its option from a
    pointer argument, which it dereferences without a nil check, and the
    global slot (initialised with [new(ExtractingImagesOption)]) is only
    written by the two setters. *)

Module OptionArgument.

(** A call returns (or blocks), or panics on a nil pointer dereference. *)
Inductive outcome (A : Type) : Type :=
| Done (m : M A)
| Panic.
Arguments Done {A} m.
Arguments Panic {A}.

(** [extractingImageOption = new(ExtractingImagesOption)] *)
Definition init : globals :=
{| ffprobeBinPath := "ffprobe";
   ffmpegBinPath := "ffmpeg";
   extractingImageOption :=
     Some {| FrameRate := ""; OutputWidth := None; OutputHeight := None;
             FilePath := "" |};
   mp4ConvertOption := None |}.

Definition ExtractingImagesContext (w : world) (g : globals) (ctx : context)
  (option_ : option ExtractingImagesOption) : outcome (option error) :=
match option_ with
| None => Panic
| Some opt =>
    let outputFileFormat := resolveOutputFrameFileFormat (FilePath opt) in
    let args :=
      match OutputWidth opt, OutputHeight opt with
      | Some width, Some height =>
          [ "-i"; FilePath opt;
            "-r"; FrameRate opt;
            "-s"; Sprintf_dxd width height;
            "-f"; "image2";
            outputFileFormat ]
      | _, _ =>
          [ "-i"; FilePath opt;
            "-r"; FrameRate opt;
            "-f"; "image2";
            outputFileFormat ]
      end in
    let cmd := exec_Command w (ffmpegBinPath g) args in
    Done
      (err <- cmd_Start w cmd ;;
       match err with
       | Some e =>
           if is_ErrNotFound e then ret (Some ErrFFProbeNotFound)
           else ret (Some (lib e))
       | None =>
           go_Wait cmd ;;
           c <- select_ctx_done w ctx cmd ;;
           match c with
           | case_ctx_Done =>
               err <- Process_Kill w cmd ;;
               match err with
               | None => ret (Some ErrTimeout)
               | Some e => ret (Some (lib e))
               end
           | case_done (Some e) => ret (Some (lib e))
           | case_done None => ret None
           end
       end)
end.

Definition ExtractingImages (w : world) (g : globals)
  (option_ : option ExtractingImagesOption) (timeout : N)
: outcome (option error) :=
ExtractingImagesContext w g
  (context_WithTimeout context_Background timeout) option_.

End OptionArgument.

(** ** Vocabulary of the statements *)

Definition no_dot (s : string) : Prop :=
  forallb (fun c => negb (isDot c)) (chars s) = true.

Definition no_separator (l : list ascii) : Prop :=
  forallb (fun c => negb (IsPathSeparator c)) l = true.

(** The process was created: no lookup error and no fork/exec error. *)
Definition started (w : world) (cmd : Cmd) : Prop :=
  Err cmd = None /\ proc_start (process_of w cmd) = None.

(** The [select] takes the [<-ctx.Done()] case. *)
Definition cancelled_first (w : world) (ctx : context) (cmd : Cmd) : Prop :=
  proc_race (process_of w cmd) ctx = Cancelled.

(** The [select] takes the [<-done] case with a nil error: the process
    exited by itself with status zero. *)
Definition exited_cleanly (w : world) (ctx : context) (cmd : Cmd) : Prop :=
  started w cmd /\
  proc_race (process_of w cmd) ctx = Completed /\
  proc_wait (process_of w cmd) = None.

(** The argument list handed to [exec.Command] by a call: [cmd.Args]
    without the program name in front. *)
Definition built_args {A : Type} (m : M A) : option (list string) :=
  match calls m with
  | call_Start cmd :: _ => Some (tl (Args cmd))
  | call_Run cmd :: _ => Some (tl (Args cmd))
  | _ => None
  end.

(** The invocation shapes as the specification writes them. *)
Definition spec_resize_argument (opt : ExtractingImagesOption) : list string :=
  match OutputWidth opt, OutputHeight opt with
  | Some width, Some height => ["-s"; (decimal width ++ "x" ++ decimal height)%string]
  | _, _ => []
  end.

Definition spec_extraction_shape (opt : ExtractingImagesOption) : list string :=
  ["-i"; FilePath opt; "-r"; FrameRate opt]
    ++ spec_resize_argument opt
    ++ ["-f"; "image2"; resolveOutputFrameFileFormat (FilePath opt)].

Definition spec_conversion_shape (opt : MP4ConvertOption) : list string :=
  ["-i"; filePath opt; resolveOutputMP4FileFormat (filePath opt)]
    ++ (if Overwrite opt then ["-y"] else []).

(** The process runner: the body the three entry points repeat, with
    what differs between them as parameters: the not-found sentinel, how
    an error is returned, and what follows a clean exit. *)
Definition process_runner {A : Type}
    (w : world) (ctx : context) (cmd : Cmd)
    (notFound : error) (fail : error -> A) (succeed : M A) : M A :=
  (err <- cmd_Start w cmd ;;
   match err with
   | Some e =>
       if is_ErrNotFound e then ret (fail notFound)
       else ret (fail (lib e))
   | None =>
       go_Wait cmd ;;
       c <- select_ctx_done w ctx cmd ;;
       match c with
       | case_ctx_Done =>
           err <- Process_Kill w cmd ;;
           match err with
           | None => ret (fail ErrTimeout)
           | Some e => ret (fail (lib e))
           end
       | case_done (Some e) => ret (fail (lib e))
       | case_done None => succeed
       end
   end)%go.

(** [fmt.Errorf("option not set")] *)
Definition NotConfigured : error := fmt_Errorf "option not set" [].

Section Operations.

Context {ProbeData : Type}.
Variable emptyProbeData : ProbeData.
Variable json_Unmarshal : string -> ProbeData -> ProbeData * option lib_error.

(** The three operations that run the hand-written race. *)
Inductive operation : Type :=
| probe (filePath : string)
| extraction
| conversion.

Definition error_only {A : Type} (m : M (A * option error)) : M (option error) :=
  match m with
  | (Ret (_, err), t) => (Ret err, t)
  | (Blocked, t) => (Blocked, t)
  end.

(** The error a call of the operation returns, with its calls. *)
Definition run (op : operation) (w : world) (g : globals) (ctx : context)
  : M (option error) :=
  match op with
  | probe file =>
      error_only (GetProbeDataContext ProbeData emptyProbeData json_Unmarshal w g ctx file)
  | extraction => ExtractingImagesContext w g ctx
  | conversion => ConvertToMP4Context w g ctx
  end.

(** The command of the operation, when its option is configured. *)
Definition command (op : operation) (w : world) (g : globals) : option Cmd :=
  match op with
  | probe file =>
      Some (exec_Command w (ffprobeBinPath g)
              ["-v"; "quiet"; "-print_format"; "json";
               "-show_format"; "-show_streams"; file])
  | extraction =>
      match extractingImageOption g with
      | Some opt => Some (exec_Command w (ffmpegBinPath g) (spec_extraction_shape opt))
      | None => None
      end
  | conversion =>
      match mp4ConvertOption g with
      | Some opt => Some (exec_Command w (ffmpegBinPath g) (spec_conversion_shape opt))
      | None => None
      end
  end.

(** The operation reads a global option that is nil. *)
Definition unconfigured (op : operation) (g : globals) : Prop :=
  match op with
  | probe _ => False
  | extraction => extractingImageOption g = None
  | conversion => mp4ConvertOption g = None
  end.

End Operations.

Arguments probe filePath%_string.

(** The two ways to probe: [GetProbeDataContext], and
    [GetProbeDataOptions] with its extra arguments. *)
Inductive probe_call : Type :=
| by_context
| by_options (extraFFProbeOptions : list string).

(** The command of [GetProbeDataOptions]. *)
Definition probe_options_command
    (w : world) (g : globals) (file : string) (extra : list string) : Cmd :=
  exec_Command w (ffprobeBinPath g)
    ((["-loglevel"; "fatal"; "-print_format"; "json";
       "-show_format"; "-show_streams"] ++ extra) ++ [file]).

Section ProbeCalls.

Context {ProbeData : Type}.
Variable emptyProbeData : ProbeData.
Variable json_Unmarshal : string -> ProbeData -> ProbeData * option lib_error.

Definition probe_run (pc : probe_call) (w : world) (g : globals) (ctx : context)
  (file : string) : M (option ProbeData * option error) :=
match pc with
| by_context =>
    GetProbeDataContext ProbeData emptyProbeData json_Unmarshal w g ctx file
| by_options extra =>
    GetProbeDataOptions ProbeData emptyProbeData json_Unmarshal w g ctx file extra
end.

End ProbeCalls.

Definition probe_command (pc : probe_call) (w : world) (g : globals)
    (file : string) : Cmd :=
  match pc with
  | by_context =>
      exec_Command w (ffprobeBinPath g)
        ["-v"; "quiet"; "-print_format"; "json";
         "-show_format"; "-show_streams"; file]
  | by_options extra => probe_options_command w g file extra
  end.

(** The subprocess of the probe ran to its end and exited with status
    zero: the [select] received nil from [done], or [cmd.Run()] returned
    nil. *)
Definition exit_status_zero (pc : probe_call) (w : world) (ctx : context)
    (cmd : Cmd) : Prop :=
  match pc with
  | by_context => exited_cleanly w ctx cmd
  | by_options _ => result (cmd_Run w ctx cmd) = Ret None
  end.

(** Nothing was captured from standard error ([GetProbeDataContext]
    does not capture it). *)
Definition stderr_empty (pc : probe_call) (w : world) (cmd : Cmd) : Prop :=
  match pc with
  | by_context => True
  | by_options _ => stdErr_String w cmd = ""%string
  end.

(** How each variant returns the error of [json.Unmarshal]. *)
Definition decode_error (pc : probe_call) (e : lib_error) : error :=
  match pc with
  | by_context => lib e
  | by_options _ => fmt_Errorf "error unmarshalling output: %w" [arg_error e]
  end.

(** ** Concrete worlds for the examples *)

(** A toy decoder: only the empty object decodes. *)
Definition toy_Unmarshal (bytes : string) (data : list string)
  : list string * option lib_error :=
  if String.eqb bytes "{}" then (data, None)
  else (data, Some (json_error "invalid character")).

Definition slow_proc : proc :=
  {| proc_start := None;
     proc_race := fun _ => Cancelled;
     proc_kill := None;
     proc_wait := Some (exec_ExitError 1);
     proc_wait_killed := Some (os_error "signal: killed");
     proc_stdout := "";
     proc_stderr := "" |}.

Definition garbage_proc (stderr : string) : proc :=
  {| proc_start := None;
     proc_race := fun _ => Completed;
     proc_kill := Some (os_error "os: process already finished");
     proc_wait := None;
     proc_wait_killed := None;
     proc_stdout := "not json";
     proc_stderr := stderr |}.

Definition installed (p : proc) : world :=
  {| LookPath := fun name => Some ("/usr/bin/" ++ name)%string;
     fork_exec := fun _ _ => p |}.

(** Nothing on the search path. *)
Definition bare (p : proc) : world :=
  {| LookPath := fun _ => None;
     fork_exec := fun _ _ => p |}.

Definition intro_extraction : globals :=
  DefaultExtractingImagesOption "/videos/intro.mp4" init.

Definition intro_conversion : globals :=
  DefaultMP4ConvertOption "/videos/intro.mov" init.

Definition five_seconds : context :=
  context_WithTimeout context_Background 5000000000.

(** [ffmpeg -i /videos/intro.mp4 -r 1 -f image2 intro-%03d.jpeg], found
    in /usr/bin. *)
Definition intro_extraction_cmd : Cmd :=
  {| Path := "/usr/bin/ffmpeg";
     Args := ["ffmpeg"; "-i"; "/videos/intro.mp4"; "-r"; "1";
              "-f"; "image2"; "intro-%03d.jpeg"];
     Err := None |}.

Definition half_size : ExtractingImagesOption :=
  {| FrameRate := "0.5";
     OutputWidth := Some 640%N;
     OutputHeight := Some 320%N;
     FilePath := "intro.mp4" |}.

Definition keep_existing : MP4ConvertOption :=
  {| Overwrite := false; filePath := "clips/target.mov" |}.

(** ffprobe exits with status zero, prints something that is not JSON and
    warns on standard error. *)
Definition noisy_world : world := installed (garbage_proc "deprecated pixel format").

(** The same without the warning. *)
Definition quiet_world : world := installed (garbage_proc "").


(** ** Further vocabulary *)

(** The sentinel each operation substitutes for [exec.ErrNotFound]. *)
Definition not_found_sentinel (op : operation) : error :=
  match op with
  | probe _ => ErrFFProbeNotFound
  | extraction => ErrFFMPEGNotFound
  | conversion => ErrFFMPEGNotFound
  end.

(** The program name ([cmd.Args[0]]) of the first os/exec call. *)
Definition program_of {A : Type} (m : M A) : option string :=
  match calls m with
  | call_Start cmd :: _ => hd_error (Args cmd)
  | call_Run cmd :: _ => hd_error (Args cmd)
  | _ => None
  end.

(** The fixed arguments of [GetProbeDataOptions]. *)
Definition probe_options_flags : list string :=
  ["-loglevel"; "fatal"; "-print_format"; "json";
   "-show_format"; "-show_streams"].

(** ffmpeg exits with status 1. *)
Definition failing_proc : proc :=
  {| proc_start := None;
     proc_race := fun _ => Completed;
     proc_kill := Some (os_error "os: process already finished");
     proc_wait := Some (exec_ExitError 1);
     proc_wait_killed := Some (exec_ExitError 1);
     proc_stdout := "";
     proc_stderr := "intro.mp4: No such file or directory" |}.

(** A process that never exits, under a context that is never done. *)
Definition hung_proc : proc :=
  {| proc_start := None;
     proc_race := fun _ => Pending;
     proc_kill := None;
     proc_wait := None;
     proc_wait_killed := None;
     proc_stdout := "";
     proc_stderr := "" |}.

(** The program file exists but cannot be executed. *)
Definition denied_proc : proc :=
  {| proc_start := Some (os_error "fork/exec /usr/bin/ffmpeg: permission denied");
     proc_race := fun _ => Pending;
     proc_kill := None;
     proc_wait := None;
     proc_wait_killed := None;
     proc_stdout := "";
     proc_stderr := "" |}.

(** ffprobe prints the empty object and exits with status zero. *)
Definition empty_object_proc : proc :=
  {| proc_start := None;
     proc_race := fun _ => Completed;
     proc_kill := Some (os_error "os: process already finished");
     proc_wait := None;
     proc_wait_killed := None;
     proc_stdout := "{}";
     proc_stderr := "" |}.

(** The error of [cmd.Start()]: the lookup error kept in the command, or
    the fork/exec error. *)
Definition start_error (w : world) (cmd : Cmd) : option lib_error :=
  match Err cmd with
  | Some e => Some e
  | None => proc_start (process_of w cmd)
  end.

Section Completion.

Context {ProbeData : Type}.
Variable emptyProbeData : ProbeData.
Variable json_Unmarshal : string -> ProbeData -> ProbeData * option lib_error.

(** What is left to fail after a clean exit: decoding, for the probe. *)
Definition completion_error (op : operation) (w : world) (cmd : Cmd)
: option error :=
match op with
| probe _ =>
    match snd (json_Unmarshal (outputBuf w cmd) emptyProbeData) with
    | Some e => Some (lib e)
    | None => None
    end
| extraction => None
| conversion => None
end.

End Completion.

(** [ffmpeg -i /videos/intro.mov intro.mp4 -y], found in /usr/bin. *)
Definition intro_conversion_cmd : Cmd :=
  {| Path := "/usr/bin/ffmpeg";
     Args := ["ffmpeg"; "-i"; "/videos/intro.mov"; "intro.mp4"; "-y"];
     Err := None |}.


Definition already_mp4 : MP4ConvertOption :=
  {| Overwrite := true; filePath := "intro.mp4" |}.

(** ** Facts about the string helpers *)

Section GoStringFacts.

Lemma of_chars_chars (s : string) : of_chars (chars s) = s.
Proof. apply string_of_list_ascii_of_string. Qed.

Lemma chars_of_chars (l : list ascii) : chars (of_chars l) = l.
Proof. apply list_ascii_of_string_of_list_ascii. Qed.

Lemma chars_app (s t : string) : chars (s ++ t)%string = chars s ++ chars t.
Proof.
  induction s as [|c s IH]; simpl; [reflexivity|].
  unfold chars in *; simpl; now rewrite IH.
Qed.

Lemma of_chars_app (k l : list ascii) :
  of_chars (k ++ l) = (of_chars k ++ of_chars l)%string.
Proof.
  induction k as [|c k IH]; simpl; [reflexivity|].
  unfold of_chars in *; simpl; now rewrite IH.
Qed.

Lemma chars_inj (s t : string) : chars s = chars t -> s = t.
Proof.
  intros H. rewrite <- (of_chars_chars s), <- (of_chars_chars t).
  now rewrite H.
Qed.

End GoStringFacts.

Example base_intro : Base "/videos/intro.mp4" = "intro.mp4".
Proof. reflexivity. Qed.
Example base_slashes : Base "///" = "/".
Proof. reflexivity. Qed.
Example base_trailing : Base "a/b.d/" = "b.d".
Proof. reflexivity. Qed.
Example ext_intro : Ext "intro.tar.gz" = ".gz".
Proof. reflexivity. Qed.
Example ext_none : Ext "a.b/intro" = "".
Proof. reflexivity. Qed.
Example frame_intro :
  resolveOutputFrameFileFormat "/videos/intro.mp4" = "intro-%03d.jpeg".
Proof. reflexivity. Qed.
Example mp4_intro : resolveOutputMP4FileFormat "clips/target.mov" = "target.mp4".
Proof. reflexivity. Qed.
Example frame_noext : resolveOutputFrameFileFormat "clips/target" = "target-%03d.jpeg".
Proof. reflexivity. Qed.

(** ** The output names *)

Lemma length_chars (s : string) : String.length s = List.length (chars s).
Proof.
  induction s as [|c s IH]; simpl; [reflexivity|].
  now rewrite IH.
Qed.

Lemma skipn_length_app {A : Type} (k l : list A) :
  skipn (List.length k) (k ++ l) = l.
Proof. induction k; simpl; auto. Qed.

Lemma firstn_length_app {A : Type} (k l : list A) :
  firstn (List.length k) (k ++ l) = k.
Proof. induction k; simpl; [reflexivity|]. now f_equal. Qed.

Lemma suffix_offset (s t : string) :
  String.length (s ++ t) - String.length t = List.length (chars s).
Proof.
  rewrite !length_chars, chars_app, length_app. lia.
Qed.

Lemma HasSuffix_app (s t : string) : HasSuffix (s ++ t) t = true.
Proof.
  unfold HasSuffix. apply andb_true_intro; split.
  - apply Nat.leb_le. rewrite !length_chars, chars_app, length_app. lia.
  - rewrite suffix_offset, chars_app, skipn_length_app, of_chars_chars.
    apply String.eqb_refl.
Qed.

Lemma TrimSuffix_app (s t : string) : TrimSuffix (s ++ t) t = s.
Proof.
  unfold TrimSuffix. rewrite HasSuffix_app.
  now rewrite suffix_offset, chars_app, firstn_length_app, of_chars_chars.
Qed.

(** Scanning back over characters that are neither a dot nor a separator
    reaches the dot and returns it with everything read so far. *)
Lemma ext_scan_found (l rest acc : list ascii) :
  forallb (fun c => negb (isDot c)) l = true ->
  no_separator l ->
  ext_scan (l ++ "."%char :: rest) acc = "."%char :: rev l ++ acc.
Proof.
  unfold no_separator. revert acc.
  induction l as [|c l IH]; intros acc Hd Hs; simpl in *.
  - reflexivity.
  - apply andb_prop in Hd as [Hc Hd]. apply andb_prop in Hs as [Hc' Hs].
    apply negb_true_iff in Hc, Hc'. rewrite Hc, Hc'.
    rewrite IH by assumption. now rewrite <- app_assoc.
Qed.

Lemma forallb_rev {A : Type} (f : A -> bool) (l : list A) :
  forallb f (rev l) = forallb f l.
Proof.
  induction l as [|a l IH]; simpl; [reflexivity|].
  rewrite forallb_app, IH. simpl. rewrite andb_true_r. apply andb_comm.
Qed.

Lemma Ext_found (stem ext : string) :
  no_dot ext -> no_separator (chars ext) ->
  Ext (stem ++ "." ++ ext) = ("." ++ ext)%string.
Proof.
  intros Hd Hs. unfold Ext.
  rewrite chars_app. change (chars ("." ++ ext)%string) with ("."%char :: chars ext).
  rewrite rev_app_distr. simpl rev. rewrite <- app_assoc. simpl app.
  rewrite ext_scan_found.
  - rewrite rev_involutive, app_nil_r.
    change ("."%char :: chars ext) with (chars ("." ++ ext)%string).
    apply of_chars_chars.
  - now rewrite forallb_rev.
  - unfold no_separator. now rewrite forallb_rev.
Qed.

Lemma last_element_no_separator (r acc : list ascii) :
  no_separator acc -> no_separator (last_element r acc).
Proof.
  unfold no_separator. revert acc.
  induction r as [|c r IH]; intros acc Hacc; simpl; [assumption|].
  destruct (IsPathSeparator c) eqn:Hc; [assumption|].
  apply IH. simpl. now rewrite Hc.
Qed.

(** [filepath.Base] returns a single path element, or the root. *)
Lemma Base_element (p : string) :
  Base p = "/" \/ no_separator (chars (Base p)).
Proof.
  unfold Base. destruct p as [|c p]; [right; reflexivity|].
  pose proof (last_element_no_separator
                (strip_trailing (rev (chars (String c p)))) [] eq_refl) as H.
  destruct (last_element _ _) as [|a e]; [now left|right].
  now rewrite chars_of_chars.
Qed.

Lemma root_has_no_extension (stem ext : string) : "/"%string <> (stem ++ "." ++ ext)%string.
Proof.
  destruct stem as [|c [|d stem]]; simpl; discriminate.
Qed.

Lemma last_element_found (l rest acc : list ascii) :
  no_separator l ->
  last_element (l ++ "/"%char :: rest) acc = rev l ++ acc.
Proof.
  unfold no_separator. revert acc.
  induction l as [|c l IH]; intros acc Hs; simpl in *; [reflexivity|].
  apply andb_prop in Hs as [Hc Hs]. apply negb_true_iff in Hc.
  rewrite Hc, IH by assumption. now rewrite <- app_assoc.
Qed.

(** The base name of [dir/name] is [name]. *)
Lemma Base_join (dir name : string) :
  name <> ""%string -> no_separator (chars name) ->
  Base (dir ++ "/" ++ name) = name.
Proof.
  intros Hne Hs. unfold Base.
  assert (Hrev : rev (chars (dir ++ "/" ++ name)%string)
                 = rev (chars name) ++ "/"%char :: rev (chars dir)).
  { rewrite chars_app. change (chars ("/" ++ name)%string) with ("/"%char :: chars name).
    rewrite rev_app_distr. simpl rev. now rewrite <- app_assoc. }
  destruct (dir ++ "/" ++ name)%string as [|c p] eqn:Hp.
  { destruct dir; discriminate. }
  rewrite Hrev.
  assert (Hs' : no_separator (rev (chars name)))
    by (unfold no_separator in *; now rewrite forallb_rev).
  assert (Hstrip : forall rest, strip_trailing (rev (chars name) ++ rest)
                                = rev (chars name) ++ rest).
  { intros rest. destruct (rev (chars name)) as [|a r] eqn:Hr.
    - apply (f_equal (@rev ascii)) in Hr. rewrite rev_involutive in Hr.
      simpl in Hr. apply (f_equal of_chars) in Hr.
      rewrite of_chars_chars in Hr. now elim Hne.
    - unfold no_separator in Hs'. simpl in Hs'.
      apply andb_prop in Hs' as [Ha _]. apply negb_true_iff in Ha.
      simpl. now rewrite Ha. }
  rewrite Hstrip, last_element_found by assumption.
  rewrite rev_involutive, app_nil_r.
  destruct (chars name) as [|a l] eqn:Hn.
  - apply (f_equal of_chars) in Hn. rewrite of_chars_chars in Hn. now elim Hne.
  - rewrite <- Hn. apply of_chars_chars.
Qed.

(** Trimming the extension of [stem.ext] leaves [stem]. *)
Lemma strip_extension (stem ext : string) :
  no_dot ext -> no_separator (chars ext) ->
  TrimSuffix (stem ++ "." ++ ext) (Ext (stem ++ "." ++ ext)) = stem.
Proof.
  intros Hd Hs. rewrite Ext_found by assumption. apply TrimSuffix_app.
Qed.

(** The helpers on a path written out as [dir/stem.ext]. *)
Lemma output_names_of_joined_path (dir stem ext : string) :
  no_separator (chars stem) -> no_separator (chars ext) -> no_dot ext ->
  resolveOutputFrameFileFormat (dir ++ "/" ++ stem ++ "." ++ ext)
  = (stem ++ "-%03d.jpeg")%string /\
  resolveOutputMP4FileFormat (dir ++ "/" ++ stem ++ "." ++ ext)
  = (stem ++ ".mp4")%string.
Proof.
  intros Hstem Hext Hdot.
  assert (Hbase : Base (dir ++ "/" ++ stem ++ "." ++ ext)
                  = (stem ++ "." ++ ext)%string).
  { apply Base_join.
    - destruct stem; discriminate.
    - unfold no_separator in *. rewrite !chars_app, !forallb_app.
      rewrite Hstem, Hext. reflexivity. }
  unfold resolveOutputFrameFileFormat, resolveOutputMP4FileFormat.
  now rewrite Hbase, strip_extension.
Qed.


(** ** Output names (ffmpeg.go, resolveOutputFrameFileFormat and
       resolveOutputMP4FileFormat) *)

(** C4. For every path [p] whose base name is [stem.ext], the frame
    pattern is [stem] followed by [-%03d.jpeg] and the conversion output
    is [stem] followed by [.mp4]. *)
Theorem output_names_strip_extension (p stem ext : string) :
  Base p = (stem ++ "." ++ ext)%string ->
  no_dot ext ->
  resolveOutputFrameFileFormat p = (stem ++ "-%03d.jpeg")%string /\
  resolveOutputMP4FileFormat p = (stem ++ ".mp4")%string.
Proof.
  intros Hbase Hdot.
  assert (Hsep : no_separator (chars ext)).
  { destruct (Base_element p) as [Hroot | Hel].
    - rewrite Hbase in Hroot. symmetry in Hroot.
      now apply root_has_no_extension in Hroot.
    - unfold no_separator in *. rewrite Hbase, !chars_app, !forallb_app in Hel.
      apply andb_prop in Hel as [_ Hel]. now apply andb_prop in Hel as [_ Hel]. }
  unfold resolveOutputFrameFileFormat, resolveOutputMP4FileFormat.
  now rewrite Hbase, strip_extension.
Qed.

Lemma output_names_strip_extension_witness :
  Base "/videos/intro.mp4" = ("intro" ++ "." ++ "mp4")%string /\
  no_dot "mp4" /\
  resolveOutputFrameFileFormat "/videos/intro.mp4" = "intro-%03d.jpeg"%string /\
  resolveOutputMP4FileFormat "/videos/intro.mp4" = "intro.mp4"%string.
Proof.
  split; [reflexivity|]. split; [reflexivity|].
  apply (output_names_strip_extension "/videos/intro.mp4" "intro" "mp4");
    reflexivity.
Defined.

(** ** The process runner *)

Section Runner.

Context {A : Type}.
Variables (w : world) (ctx : context) (cmd : Cmd).
Variables (notFound : error) (fail : error -> A) (succeed : M A).

Local Abbreviation runner := (process_runner w ctx cmd notFound fail succeed).

Lemma runner_lookup_failed (e : lib_error) :
  Err cmd = Some e ->
  runner = (Ret (fail (if is_ErrNotFound e then notFound else lib e)),
            [call_Start cmd]).
Proof.
  intros H. unfold process_runner, cmd_Start, bind, tell, ret.
  rewrite H. now destruct (is_ErrNotFound e).
Qed.

Lemma runner_start_failed (e : lib_error) :
  Err cmd = None -> proc_start (process_of w cmd) = Some e ->
  runner = (Ret (fail (if is_ErrNotFound e then notFound else lib e)),
            [call_Start cmd]).
Proof.
  intros H1 H2. unfold process_runner, cmd_Start, bind, tell, ret.
  rewrite H1, H2. now destruct (is_ErrNotFound e).
Qed.

Lemma runner_cancelled :
  started w cmd -> cancelled_first w ctx cmd ->
  runner = (Ret (fail (match proc_kill (process_of w cmd) with
                       | None => ErrTimeout
                       | Some e => lib e
                       end)),
            [call_Start cmd; call_Wait cmd; call_Kill cmd]).
Proof.
  intros [H1 H2] H3. red in H3.
  unfold process_runner, cmd_Start, go_Wait, select_ctx_done,
    Process_Kill, bind, tell, ret.
  rewrite H1, H2, H3. now destruct (proc_kill (process_of w cmd)).
Qed.

Lemma runner_exit_error (e : lib_error) :
  started w cmd ->
  proc_race (process_of w cmd) ctx = Completed ->
  proc_wait (process_of w cmd) = Some e ->
  runner = (Ret (fail (lib e)), [call_Start cmd; call_Wait cmd]).
Proof.
  intros [H1 H2] H3 H4.
  unfold process_runner, cmd_Start, go_Wait, select_ctx_done,
    bind, tell, ret.
  now rewrite H1, H2, H3, H4.
Qed.

Lemma runner_exit_clean :
  exited_cleanly w ctx cmd ->
  runner = (fst succeed, [call_Start cmd; call_Wait cmd] ++ snd succeed).
Proof.
  intros [[H1 H2] [H3 H4]].
  unfold process_runner, cmd_Start, go_Wait, select_ctx_done,
    bind, tell, ret.
  rewrite H1, H2, H3, H4. now destruct succeed as [r t].
Qed.

Lemma runner_pending :
  started w cmd ->
  proc_race (process_of w cmd) ctx = Pending ->
  runner = (Blocked, [call_Start cmd; call_Wait cmd]).
Proof.
  intros [H1 H2] H3.
  unfold process_runner, cmd_Start, go_Wait, select_ctx_done,
    bind, tell, ret, block.
  now rewrite H1, H2, H3.
Qed.

End Runner.

(** The code's two argument lists are the specification's shape. *)
Lemma ExtractingImagesContext_runner (w : world) (g : globals) (ctx : context)
    (opt : ExtractingImagesOption) :
  extractingImageOption g = Some opt ->
  ExtractingImagesContext w g ctx =
  process_runner w ctx
    (exec_Command w (ffmpegBinPath g) (spec_extraction_shape opt))
    ErrFFMPEGNotFound Some (ret None).
Proof.
  intros H. unfold ExtractingImagesContext. rewrite H.
  unfold spec_extraction_shape, spec_resize_argument, Sprintf_dxd.
  destruct (OutputWidth opt), (OutputHeight opt); reflexivity.
Qed.

Lemma ConvertToMP4Context_runner (w : world) (g : globals) (ctx : context)
    (opt : MP4ConvertOption) :
  mp4ConvertOption g = Some opt ->
  ConvertToMP4Context w g ctx =
  process_runner w ctx
    (exec_Command w (ffmpegBinPath g) (spec_conversion_shape opt))
    ErrFFMPEGNotFound Some (ret None).
Proof.
  intros H. unfold ConvertToMP4Context. rewrite H.
  unfold spec_conversion_shape.
  destruct (Overwrite opt); reflexivity.
Qed.

Lemma GetProbeDataContext_runner {ProbeData : Type} (emptyProbeData : ProbeData)
    (json_Unmarshal : string -> ProbeData -> ProbeData * option lib_error)
    (w : world) (g : globals) (ctx : context) (file : string) :
  let cmd := exec_Command w (ffprobeBinPath g)
               ["-v"; "quiet"; "-print_format"; "json";
                "-show_format"; "-show_streams"; file] in
  GetProbeDataContext ProbeData emptyProbeData json_Unmarshal w g ctx file =
  process_runner w ctx cmd ErrFFProbeNotFound (fun e => (None, Some e))
    (let (data, err) := json_Unmarshal (outputBuf w cmd) emptyProbeData in
     match err with
     | Some e => ret (Some data, Some (lib e))
     | None => ret (Some data, None)
     end).
Proof. reflexivity. Qed.

(** ** Cancellation *)

Section Cancellation.

Context {ProbeData : Type}.
Variable emptyProbeData : ProbeData.
Variable json_Unmarshal : string -> ProbeData -> ProbeData * option lib_error.

Local Abbreviation run_op := (run emptyProbeData json_Unmarshal).



End Cancellation.

(** ** Start failures *)

Lemma Args_exec_Command (w : world) (name : string) (arg : list string) :
  Args (exec_Command w name arg) = name :: arg.
Proof.
  unfold exec_Command.
  destruct (String.eqb (Base name) name); [destruct (LookPath w name)|];
    reflexivity.
Qed.

(** A bare program name that the search path does not resolve. *)
Lemma Err_exec_Command_missing (w : world) (name : string) (arg : list string) :
  Base name = name -> LookPath w name = None ->
  Err (exec_Command w name arg) = Some (exec_Error name exec_ErrNotFound).
Proof.
  intros Hb Hl. unfold exec_Command.
  now rewrite Hb, String.eqb_refl, Hl.
Qed.

(** The comparison the three entry points make on the error of
    [cmd.Start()]: the sentinel itself is replaced, anything else is
    returned as it is. *)
Lemma runner_start_error {A : Type} (w : world) (ctx : context) (cmd : Cmd)
    (notFound : error) (fail : error -> A) (succeed : M A) (e : lib_error) :
  result (cmd_Start w cmd) = Ret (Some e) ->
  process_runner w ctx cmd notFound fail succeed =
  (Ret (fail (if is_ErrNotFound e then notFound else lib e)), [call_Start cmd]).
Proof.
  unfold cmd_Start, result, bind, tell, ret; simpl.
  destruct (Err cmd) as [e'|] eqn:He; simpl; intros H.
  - injection H as <-. now apply runner_lookup_failed.
  - destruct (proc_start (process_of w cmd)) as [e'|] eqn:Hs; [|discriminate].
    injection H as <-. now apply runner_start_failed.
Qed.

(** C2. With the default program names and nothing on the search path,
    [cmd.Start()] returns [&exec.Error{name, exec.ErrNotFound}], which is
    not [exec.ErrNotFound] itself: the three entry points return that
    error, not [ErrFFMPEGNotFound] / [ErrFFProbeNotFound]. *)
Theorem missing_binary_is_returned_unclassified
    (ProbeData : Type) (emptyProbeData : ProbeData)
    (json_Unmarshal : string -> ProbeData -> ProbeData * option lib_error)
    (p : proc) (ctx : context) (file : string)
    (opt : ExtractingImagesOption) (mopt : MP4ConvertOption) :
  result (ExtractingImagesContext (bare p)
            (NewExtractingImagesOption (Some opt) init) ctx)
  = Ret (Some (lib (exec_Error "ffmpeg" exec_ErrNotFound))) /\
  result (ConvertToMP4Context (bare p)
            (NewMP4ConvertOption (Some mopt) init) ctx)
  = Ret (Some (lib (exec_Error "ffmpeg" exec_ErrNotFound))) /\
  result (GetProbeDataContext ProbeData emptyProbeData json_Unmarshal
            (bare p) init ctx file)
  = Ret (None, Some (lib (exec_Error "ffprobe" exec_ErrNotFound))).
Proof.
  split; [|split].
  - rewrite (ExtractingImagesContext_runner (bare p)
               (NewExtractingImagesOption (Some opt) init) ctx opt eq_refl).
    rewrite runner_lookup_failed with (e := exec_Error "ffmpeg" exec_ErrNotFound);
      [reflexivity | now apply Err_exec_Command_missing].
  - rewrite (ConvertToMP4Context_runner (bare p)
               (NewMP4ConvertOption (Some mopt) init) ctx mopt eq_refl).
    rewrite runner_lookup_failed with (e := exec_Error "ffmpeg" exec_ErrNotFound);
      [reflexivity | now apply Err_exec_Command_missing].
  - rewrite GetProbeDataContext_runner.
    rewrite runner_lookup_failed with (e := exec_Error "ffprobe" exec_ErrNotFound);
      [reflexivity | now apply Err_exec_Command_missing].
Qed.

(** ** Unconfigured calls *)

Section Unconfigured.

Context {ProbeData : Type}.
Variable emptyProbeData : ProbeData.
Variable json_Unmarshal : string -> ProbeData -> ProbeData * option lib_error.

Local Abbreviation run_op := (run emptyProbeData json_Unmarshal).

(** C3. Frame extraction and conversion called while their option global
  is nil return the error "option not set" and make no call into
  os/exec: no argument list, no process. *)
Theorem unconfigured_call_fails_without_process
  (op : operation) (w : world) (g : globals) (ctx : context) :
unconfigured op g ->
result (run_op op w g ctx) = Ret (Some NotConfigured) /\
calls (run_op op w g ctx) = [] /\
built_args (run_op op w g ctx) = None.
Proof.
destruct op as [file| |]; simpl; intros H.
- contradiction.
- unfold ExtractingImagesContext. now rewrite H.
- unfold ConvertToMP4Context. now rewrite H.
Qed.

End Unconfigured.

(** ** Argument lists *)

(** Whatever happens next, the runner's first call is [cmd.Start()]. *)
Lemma runner_built_args {A : Type} (w : world) (ctx : context) (cmd : Cmd)
    (notFound : error) (fail : error -> A) (succeed : M A) :
  built_args (process_runner w ctx cmd notFound fail succeed)
  = Some (tl (Args cmd)).
Proof.
  unfold built_args, calls, process_runner, cmd_Start, go_Wait,
    select_ctx_done, Process_Kill, bind, tell, ret, block.
  destruct (Err cmd) as [e|]; simpl.
  - now destruct (is_ErrNotFound e).
  - destruct (proc_start (process_of w cmd)) as [e|]; simpl.
    + now destruct (is_ErrNotFound e).
    + destruct (proc_race (process_of w cmd) ctx); simpl; try reflexivity.
      * now destruct (proc_kill (process_of w cmd)).
      * destruct (proc_wait (process_of w cmd)); simpl; [reflexivity|].
        now destruct succeed as [r t].
Qed.

Lemma ExtractingImagesContext_built_args (w : world) (g : globals)
    (ctx : context) (opt : ExtractingImagesOption) :
  extractingImageOption g = Some opt ->
  built_args (ExtractingImagesContext w g ctx) = Some (spec_extraction_shape opt).
Proof.
  intros H. rewrite (ExtractingImagesContext_runner _ _ _ _ H).
  now rewrite runner_built_args, Args_exec_Command.
Qed.

Lemma ConvertToMP4Context_built_args (w : world) (g : globals)
    (ctx : context) (opt : MP4ConvertOption) :
  mp4ConvertOption g = Some opt ->
  built_args (ConvertToMP4Context w g ctx) = Some (spec_conversion_shape opt).
Proof.
  intros H. rewrite (ConvertToMP4Context_runner _ _ _ _ H).
  now rewrite runner_built_args, Args_exec_Command.
Qed.

(** C5. With the extraction option configured, the arguments are
    [-i input -r rate], then [-s WxH] exactly when both [OutputWidth] and
    [OutputHeight] are set, then [-f image2] and the frame pattern; with
    one of the two unset there is no resize argument. *)
Theorem extraction_argument_list (w : world) (g : globals) (ctx : context)
    (opt : ExtractingImagesOption) :
  extractingImageOption g = Some opt ->
  built_args (ExtractingImagesContext w g ctx) = Some (spec_extraction_shape opt) /\
  (forall width height,
      OutputWidth opt = Some width -> OutputHeight opt = Some height ->
      built_args (ExtractingImagesContext w g ctx)
      = Some ["-i"; FilePath opt; "-r"; FrameRate opt;
              "-s"; (decimal width ++ "x" ++ decimal height)%string;
              "-f"; "image2"; resolveOutputFrameFileFormat (FilePath opt)]) /\
  (OutputWidth opt = None \/ OutputHeight opt = None ->
   built_args (ExtractingImagesContext w g ctx)
   = Some ["-i"; FilePath opt; "-r"; FrameRate opt;
           "-f"; "image2"; resolveOutputFrameFileFormat (FilePath opt)]).
Proof.
  intros H. rewrite (ExtractingImagesContext_built_args _ _ _ _ H).
  unfold spec_extraction_shape, spec_resize_argument.
  split; [reflexivity|]. split.
  - now intros width height -> ->.
  - intros [-> | ->]; [reflexivity|].
    now destruct (OutputWidth opt).
Qed.

(** C6. With the conversion option configured, the arguments are
    [-i input output.mp4], followed by [-y] exactly when [Overwrite] is
    set. *)
Theorem conversion_argument_list (w : world) (g : globals) (ctx : context)
    (opt : MP4ConvertOption) :
  mp4ConvertOption g = Some opt ->
  built_args (ConvertToMP4Context w g ctx) = Some (spec_conversion_shape opt) /\
  (Overwrite opt = true ->
   built_args (ConvertToMP4Context w g ctx)
   = Some ["-i"; filePath opt; resolveOutputMP4FileFormat (filePath opt); "-y"]) /\
  (Overwrite opt = false ->
   built_args (ConvertToMP4Context w g ctx)
   = Some ["-i"; filePath opt; resolveOutputMP4FileFormat (filePath opt)]).
Proof.
  intros H. rewrite (ConvertToMP4Context_built_args _ _ _ _ H).
  unfold spec_conversion_shape.
  split; [reflexivity|]. split; now intros ->.
Qed.

(** C9. [DefaultExtractingImagesOption] installs frame rate "1" with no
    width and no height, and an extraction run with it has no resize
    argument. *)
Theorem default_extraction_has_no_resize (w : world) (g : globals)
    (ctx : context) (p : string) :
  extractingImageOption (DefaultExtractingImagesOption p g)
  = Some {| FrameRate := "1"; OutputWidth := None; OutputHeight := None;
            FilePath := p |} /\
  built_args (ExtractingImagesContext w (DefaultExtractingImagesOption p g) ctx)
  = Some ["-i"; p; "-r"; "1"; "-f"; "image2"; resolveOutputFrameFileFormat p].
Proof.
  split; [reflexivity|].
  now rewrite (ExtractingImagesContext_built_args w
                 (DefaultExtractingImagesOption p g) ctx _ eq_refl).
Qed.

(** C10. [DefaultMP4ConvertOption] installs [Overwrite] true, and a
    conversion run with it ends its arguments with [-y]. *)
Theorem default_conversion_forces_overwrite (w : world) (g : globals)
    (ctx : context) (p : string) :
  mp4ConvertOption (DefaultMP4ConvertOption p g)
  = Some {| Overwrite := true; filePath := p |} /\
  built_args (ConvertToMP4Context w (DefaultMP4ConvertOption p g) ctx)
  = Some ["-i"; p; resolveOutputMP4FileFormat p; "-y"].
Proof.
  split; [reflexivity|].
  now rewrite (ConvertToMP4Context_built_args w
                 (DefaultMP4ConvertOption p g) ctx _ eq_refl).
Qed.

(** ** Probing *)

Section Probing.

Context {ProbeData : Type}.
Variable emptyProbeData : ProbeData.
Variable json_Unmarshal : string -> ProbeData -> ProbeData * option lib_error.

Local Abbreviation probe_run' := (probe_run emptyProbeData json_Unmarshal).

(** [cmd.Run()] returns nil only for a process that was started. *)
Lemma cmd_Run_nil_started (w : world) (ctx : context) (cmd : Cmd) :
result (cmd_Run w ctx cmd) = Ret None ->
started w cmd /\ cmd_Run w ctx cmd = (Ret None, [call_Run cmd]).
Proof.
unfold cmd_Run, started, result, bind, tell, ret, block; simpl.
destruct (Err cmd); simpl; [discriminate|].
destruct (proc_start (process_of w cmd)); simpl; [discriminate|].
destruct (proc_race (process_of w cmd) ctx); simpl; try discriminate.
- destruct (proc_wait_killed (process_of w cmd)); simpl; [discriminate|].
  now intros _.
- destruct (proc_wait (process_of w cmd)); simpl; [discriminate|].
  now intros _.
Qed.

Lemma stdErr_String_started (w : world) (cmd : Cmd) :
started w cmd -> stdErr_String w cmd = proc_stderr (process_of w cmd).
Proof. intros [H1 H2]. unfold stdErr_String. now rewrite H1, H2. Qed.

(** [GetProbeDataOptions] after a [cmd.Run()] that returned nil. *)
Lemma GetProbeDataOptions_ran (w : world) (g : globals) (ctx : context)
  (file : string) (extra : list string) :
let cmd := probe_options_command w g file extra in
result (cmd_Run w ctx cmd) = Ret None ->
result (GetProbeDataOptions ProbeData emptyProbeData json_Unmarshal
          w g ctx file extra)
= if negb (String.eqb (stdErr_String w cmd) "")
  then Ret (None, Some (fmt_Errorf "ffprobe error: %s"
                          [arg_string (stdErr_String w cmd)]))
  else match json_Unmarshal (outputBuf w cmd) emptyProbeData with
       | (data, Some e) =>
           Ret (Some data, Some (fmt_Errorf "error unmarshalling output: %w"
                                   [arg_error e]))
       | (data, None) => Ret (Some data, None)
       end.
Proof.
intros cmd Hrun. apply cmd_Run_nil_started in Hrun as [_ Hrun].
unfold GetProbeDataOptions. fold (probe_options_command w g file extra).
fold cmd. rewrite Hrun. unfold bind, result.
destruct (negb (String.eqb (stdErr_String w cmd) "")); [reflexivity|].
destruct (json_Unmarshal (outputBuf w cmd) emptyProbeData) as [data [e|]];
  reflexivity.
Qed.

(** C7, amended. A probe whose subprocess exits with status zero, with
  nothing captured from standard error, and whose output
  [json.Unmarshal] rejects, returns the decode error together with a
  non-nil [ProbeData]. *)
Theorem decode_failure_returns_data_and_error
  (pc : probe_call) (w : world) (g : globals) (ctx : context)
  (file : string) (data : ProbeData) (e : lib_error) :
exit_status_zero pc w ctx (probe_command pc w g file) ->
stderr_empty pc w (probe_command pc w g file) ->
json_Unmarshal (outputBuf w (probe_command pc w g file)) emptyProbeData
= (data, Some e) ->
result (probe_run' pc w g ctx file) = Ret (Some data, Some (decode_error pc e)).
Proof.
set (cmd := probe_command pc w g file).
intros Hexit Hquiet Hjson. destruct pc as [|extra]; simpl in *.
- rewrite GetProbeDataContext_runner. fold cmd.
  rewrite runner_exit_clean by assumption.
  unfold result. simpl. now rewrite Hjson.
- rewrite GetProbeDataOptions_ran by assumption. fold cmd.
  now rewrite Hquiet, Hjson.
Qed.

(** C8. [GetProbeDataOptions] whose subprocess exits with status zero
  after writing to standard error returns no [ProbeData] and the error
  "ffprobe error: <stderr>". *)
Theorem stderr_output_fails_the_probe
  (w : world) (g : globals) (ctx : context)
  (file : string) (extra : list string) :
exit_status_zero (by_options extra) w ctx (probe_options_command w g file extra) ->
proc_stderr (process_of w (probe_options_command w g file extra)) <> ""%string ->
result (probe_run' (by_options extra) w g ctx file)
= Ret (None,
       Some (fmt_Errorf "ffprobe error: %s"
               [arg_string
                  (proc_stderr
                     (process_of w (probe_options_command w g file extra)))])).
Proof.
set (cmd := probe_options_command w g file extra).
intros Hexit Herr. simpl in *.
rewrite GetProbeDataOptions_ran by assumption. fold cmd.
destruct (cmd_Run_nil_started _ _ _ Hexit) as [Hs _].
rewrite (stdErr_String_started _ _ Hs).
destruct (String.eqb_spec (proc_stderr (process_of w cmd)) "") as [Heq|Hne];
  [contradiction|reflexivity].
Qed.

End Probing.


(** ** Concrete runs *)

Example sprintf_640x320 : Sprintf_dxd 640 320 = "640x320"%string.
Proof. reflexivity. Qed.

Example sprintf_zero : Sprintf_dxd 0 7 = "0x7"%string.
Proof. reflexivity. Qed.

Example extraction_times_out :
  ExtractingImagesContext (installed slow_proc) intro_extraction five_seconds
  = (Ret (Some ErrTimeout),
     [call_Start intro_extraction_cmd; call_Wait intro_extraction_cmd;
      call_Kill intro_extraction_cmd]).
Proof. reflexivity. Qed.

Example extraction_succeeds :
  ExtractingImagesContext (installed (garbage_proc "")) intro_extraction
    context_Background
  = (Ret None, [call_Start intro_extraction_cmd; call_Wait intro_extraction_cmd]).
Proof. reflexivity. Qed.

Example extraction_width_only :
  built_args
    (ExtractingImagesContext (installed slow_proc)
       (NewExtractingImagesOption
          (Some {| FrameRate := "0.5"; OutputWidth := Some 640%N;
                   OutputHeight := None; FilePath := "intro.mp4" |}) init)
       five_seconds)
  = Some ["-i"; "intro.mp4"; "-r"; "0.5"; "-f"; "image2"; "intro-%03d.jpeg"]%string.
Proof. reflexivity. Qed.

Example extraction_resized :
  built_args
    (ExtractingImagesContext (installed slow_proc)
       (NewExtractingImagesOption
          (Some {| FrameRate := "0.5"; OutputWidth := Some 640%N;
                   OutputHeight := Some 320%N; FilePath := "intro.mp4" |}) init)
       five_seconds)
  = Some ["-i"; "intro.mp4"; "-r"; "0.5"; "-s"; "640x320";
          "-f"; "image2"; "intro-%03d.jpeg"]%string.
Proof. reflexivity. Qed.

Example conversion_default :
  built_args (ConvertToMP4Context (installed slow_proc) intro_conversion five_seconds)
  = Some ["-i"; "/videos/intro.mov"; "intro.mp4"; "-y"]%string.
Proof. reflexivity. Qed.

Example probe_blocks_forever :
  result
    (GetProbeDataContext (list string) [] toy_Unmarshal
       (installed {| proc_start := None; proc_race := fun _ => Pending;
                     proc_kill := None; proc_wait := None;
                     proc_wait_killed := None;
                     proc_stdout := ""; proc_stderr := "" |})
       init context_Background "intro.mp4")
  = Blocked.
Proof. reflexivity. Qed.

Example probe_path_override_missing :
  result
    (GetProbeDataContext (list string) [] toy_Unmarshal
       (bare {| proc_start := Some (os_error "fork/exec /opt/ffprobe: no such file or directory");
                proc_race := fun _ => Pending;
                proc_kill := None; proc_wait := None;
                proc_wait_killed := None;
                proc_stdout := ""; proc_stderr := "" |})
       (SetFFProbeBinPath "/opt/ffprobe" init) context_Background "intro.mp4")
  = Ret (None,
         Some (lib (os_error "fork/exec /opt/ffprobe: no such file or directory"))).
Proof. reflexivity. Qed.

(** ** Witnesses *)


Lemma unconfigured_call_fails_without_process_witness :
  unconfigured conversion init /\
  result (run (@nil string) toy_Unmarshal conversion
            (installed slow_proc) init five_seconds)
  = Ret (Some NotConfigured) /\
  calls (run (@nil string) toy_Unmarshal conversion
           (installed slow_proc) init five_seconds) = [] /\
  built_args (run (@nil string) toy_Unmarshal conversion
                (installed slow_proc) init five_seconds) = None.
Proof.
  split; [reflexivity|].
  apply (unconfigured_call_fails_without_process
           (@nil string) toy_Unmarshal conversion
           (installed slow_proc) init five_seconds).
  reflexivity.
Defined.

Lemma extraction_argument_list_witness :
  extractingImageOption (NewExtractingImagesOption (Some half_size) init)
  = Some half_size /\
  built_args (ExtractingImagesContext quiet_world
                (NewExtractingImagesOption (Some half_size) init) five_seconds)
  = Some ["-i"; "intro.mp4"; "-r"; "0.5"; "-s"; "640x320";
          "-f"; "image2"; "intro-%03d.jpeg"]%string.
Proof.
  split; [reflexivity|].
  exact (proj1 (proj2 (extraction_argument_list quiet_world
                         (NewExtractingImagesOption (Some half_size) init)
                         five_seconds half_size eq_refl))
           640%N 320%N eq_refl eq_refl).
Defined.

Lemma conversion_argument_list_witness :
  mp4ConvertOption (NewMP4ConvertOption (Some keep_existing) init)
  = Some keep_existing /\
  built_args (ConvertToMP4Context quiet_world
                (NewMP4ConvertOption (Some keep_existing) init) five_seconds)
  = Some ["-i"; "clips/target.mov"; "target.mp4"]%string.
Proof.
  split; [reflexivity|].
  exact (proj2 (proj2 (conversion_argument_list quiet_world
                         (NewMP4ConvertOption (Some keep_existing) init)
                         five_seconds keep_existing eq_refl))
           eq_refl).
Defined.

Lemma decode_failure_returns_data_and_error_witness :
  exit_status_zero (by_options ["-select_streams"; "v"]) quiet_world five_seconds
    (probe_command (by_options ["-select_streams"; "v"]) quiet_world init "intro.mp4") /\
  stderr_empty (by_options ["-select_streams"; "v"]) quiet_world
    (probe_command (by_options ["-select_streams"; "v"]) quiet_world init "intro.mp4") /\
  result (probe_run (@nil string) toy_Unmarshal
            (by_options ["-select_streams"; "v"]) quiet_world init five_seconds
            "intro.mp4")
  = Ret (Some [],
         Some (fmt_Errorf "error unmarshalling output: %w"
                 [arg_error (json_error "invalid character")])) /\
  exit_status_zero by_context quiet_world five_seconds
    (probe_command by_context quiet_world init "intro.mp4") /\
  result (probe_run (@nil string) toy_Unmarshal by_context quiet_world init
            five_seconds "intro.mp4")
  = Ret (Some [], Some (lib (json_error "invalid character"))).
Proof.
  split; [reflexivity|]. split; [reflexivity|]. split.
  - apply (decode_failure_returns_data_and_error (@nil string) toy_Unmarshal
             (by_options ["-select_streams"; "v"]) quiet_world init five_seconds
             "intro.mp4" [] (json_error "invalid character"));
      reflexivity.
  - split; [repeat split|].
    apply (decode_failure_returns_data_and_error (@nil string) toy_Unmarshal
             by_context quiet_world init five_seconds
             "intro.mp4" [] (json_error "invalid character"));
      [repeat split | exact I | reflexivity].
Defined.

Lemma stderr_output_fails_the_probe_witness :
  exit_status_zero (by_options []) noisy_world five_seconds
    (probe_options_command noisy_world init "intro.mp4" []) /\
  proc_stderr (process_of noisy_world
                 (probe_options_command noisy_world init "intro.mp4" []))
  <> ""%string /\
  result (probe_run (@nil string) toy_Unmarshal (by_options []) noisy_world init
            five_seconds "intro.mp4")
  = Ret (None,
         Some (fmt_Errorf "ffprobe error: %s"
                 [arg_string "deprecated pixel format"])).
Proof.
  split; [reflexivity|]. split; [discriminate|].
  apply (stderr_output_fails_the_probe (@nil string) toy_Unmarshal
           noisy_world init five_seconds "intro.mp4" []);
    [reflexivity | discriminate].
Defined.

(** ** Counterexample *)

(** C7 as stated reaches [GetProbeDataOptions] too: there a subprocess
    that exits with status zero and prints something that is not JSON,
    but also warns on standard error, yields a nil [ProbeData] and the
    standard-error failure, not a decode error. *)
Lemma decode_failure_needs_silent_stderr :
  exit_status_zero (by_options []) noisy_world five_seconds
    (probe_command (by_options []) noisy_world init "intro.mp4") /\
  toy_Unmarshal
    (outputBuf noisy_world (probe_command (by_options []) noisy_world init "intro.mp4"))
    [] = ([], Some (json_error "invalid character")) /\
  result (probe_run (@nil string) toy_Unmarshal (by_options []) noisy_world init
            five_seconds "intro.mp4")
  = Ret (None,
         Some (fmt_Errorf "ffprobe error: %s"
                 [arg_string "deprecated pixel format"])) /\
  (forall data err,
      result (probe_run (@nil string) toy_Unmarshal (by_options []) noisy_world init
                five_seconds "intro.mp4")
      <> Ret (Some data, Some err)).
Proof.
  split; [reflexivity|]. split; [reflexivity|]. split; [reflexivity|].
  intros data err. discriminate.
Qed.


(** ** The whole behaviour of a run, case by case *)

Lemma started_start_error (w : world) (cmd : Cmd) :
  started w cmd <-> start_error w cmd = None.
Proof.
  unfold started, start_error. split.
  - now intros [-> ->].
  - destruct (Err cmd); [discriminate|]. now intros ->.
Qed.

Lemma process_runner_table {A : Type} (w : world) (ctx : context) (cmd : Cmd)
    (notFound : error) (fail : error -> A) (succeed : M A) :
  process_runner w ctx cmd notFound fail succeed =
  match start_error w cmd with
  | Some e =>
      (Ret (fail (if is_ErrNotFound e then notFound else lib e)),
       [call_Start cmd])
  | None =>
      match proc_race (process_of w cmd) ctx with
      | Cancelled =>
          (Ret (fail (match proc_kill (process_of w cmd) with
                      | None => ErrTimeout
                      | Some e => lib e
                      end)),
           [call_Start cmd; call_Wait cmd; call_Kill cmd])
      | Completed =>
          match proc_wait (process_of w cmd) with
          | Some e => (Ret (fail (lib e)), [call_Start cmd; call_Wait cmd])
          | None => (fst succeed, [call_Start cmd; call_Wait cmd] ++ snd succeed)
          end
      | Pending => (Blocked, [call_Start cmd; call_Wait cmd])
      end
  end.
Proof.
  unfold start_error.
  destruct (Err cmd) as [e|] eqn:He.
  { now apply runner_lookup_failed. }
  destruct (proc_start (process_of w cmd)) as [e|] eqn:Hs.
  { now apply runner_start_failed. }
  assert (Hst : started w cmd) by now split.
  destruct (proc_race (process_of w cmd) ctx) eqn:Hr.
  - now apply runner_cancelled.
  - destruct (proc_wait (process_of w cmd)) as [e|] eqn:Hw.
    + now apply runner_exit_error.
    + apply runner_exit_clean. now repeat split.
  - now apply runner_pending.
Qed.

Section RunTable.

Context {ProbeData : Type}.
Variable emptyProbeData : ProbeData.
Variable json_Unmarshal : string -> ProbeData -> ProbeData * option lib_error.

Local Abbreviation run_op := (run emptyProbeData json_Unmarshal).
Local Abbreviation completion :=
(completion_error emptyProbeData json_Unmarshal).

Lemma run_unconfigured (op : operation) (w : world) (g : globals) (ctx : context) :
command op w g = None ->
run_op op w g ctx = (Ret (Some NotConfigured), []).
Proof.
destruct op as [file| |]; simpl; [discriminate| |].
- unfold ExtractingImagesContext.
  destruct (extractingImageOption g); [discriminate|reflexivity].
- unfold ConvertToMP4Context.
  destruct (mp4ConvertOption g); [discriminate|reflexivity].
Qed.

Lemma run_table (op : operation) (w : world) (g : globals) (ctx : context)
  (cmd : Cmd) :
command op w g = Some cmd ->
run_op op w g ctx =
match start_error w cmd with
| Some e =>
    (Ret (Some (if is_ErrNotFound e then not_found_sentinel op else lib e)),
     [call_Start cmd])
| None =>
    match proc_race (process_of w cmd) ctx with
    | Cancelled =>
        (Ret (Some (match proc_kill (process_of w cmd) with
                    | None => ErrTimeout
                    | Some e => lib e
                    end)),
         [call_Start cmd; call_Wait cmd; call_Kill cmd])
    | Completed =>
        match proc_wait (process_of w cmd) with
        | Some e => (Ret (Some (lib e)), [call_Start cmd; call_Wait cmd])
        | None => (Ret (completion op w cmd), [call_Start cmd; call_Wait cmd])
        end
    | Pending => (Blocked, [call_Start cmd; call_Wait cmd])
    end
end.
Proof.
intros Hcmd. destruct op as [file| |]; simpl in Hcmd.
- injection Hcmd as <-. unfold run.
  rewrite GetProbeDataContext_runner, process_runner_table.
  destruct (start_error w _) as [e|]; [now destruct (is_ErrNotFound e)|].
  destruct (proc_race _ ctx); try reflexivity.
  destruct (proc_wait _); [reflexivity|].
  unfold completion_error.
  destruct (json_Unmarshal _ emptyProbeData) as [data [e|]]; reflexivity.
- destruct (extractingImageOption g) as [opt|] eqn:Hopt; [|discriminate].
  injection Hcmd as <-. unfold run.
  rewrite (ExtractingImagesContext_runner _ _ _ _ Hopt), process_runner_table.
  destruct (start_error w _) as [e|]; [reflexivity|].
  now destruct (proc_race _ ctx).
- destruct (mp4ConvertOption g) as [opt|] eqn:Hopt; [|discriminate].
  injection Hcmd as <-. unfold run.
  rewrite (ConvertToMP4Context_runner _ _ _ _ Hopt), process_runner_table.
  destruct (start_error w _) as [e|]; [reflexivity|].
  now destruct (proc_race _ ctx).
Qed.

End RunTable.

(** ** What a run returns, and which calls it makes *)

Section Runs.

Context {ProbeData : Type}.
Variable emptyProbeData : ProbeData.
Variable json_Unmarshal : string -> ProbeData -> ProbeData * option lib_error.

Local Abbreviation run_op := (run emptyProbeData json_Unmarshal).
Local Abbreviation completion :=
(completion_error emptyProbeData json_Unmarshal).

(** X1. When [cmd.Start()] fails, the operation returns at once: the
  error is returned as it is (the sentinel only in place of
  [exec.ErrNotFound] itself), and no [Wait] and no [Kill] follow. *)
Theorem start_failure_ends_the_run
  (op : operation) (w : world) (g : globals) (ctx : context)
  (cmd : Cmd) (e : lib_error) :
command op w g = Some cmd ->
start_error w cmd = Some e ->
run_op op w g ctx =
(Ret (Some (if is_ErrNotFound e then not_found_sentinel op else lib e)),
 [call_Start cmd]).
Proof.
intros Hcmd He. now rewrite (run_table _ _ _ _ _ _ _ Hcmd), He.
Qed.


(** X3. A process that exits by itself with a wait error (a non-zero
  status) before the context is done: the error is returned unchanged
  and the process is not killed. *)
Theorem exit_error_is_returned
  (op : operation) (w : world) (g : globals) (ctx : context)
  (cmd : Cmd) (e : lib_error) :
command op w g = Some cmd ->
started w cmd ->
proc_race (process_of w cmd) ctx = Completed ->
proc_wait (process_of w cmd) = Some e ->
run_op op w g ctx = (Ret (Some (lib e)), [call_Start cmd; call_Wait cmd]).
Proof.
intros Hcmd Hs Hr Hw. apply started_start_error in Hs.
now rewrite (run_table _ _ _ _ _ _ _ Hcmd), Hs, Hr, Hw.
Qed.

(** X4. An operation returns a nil error exactly when its option is
  configured, the process was started and exited by itself with status
  zero before the context was done, and (for the probe) the output
  decoded. *)
Theorem nil_error_iff_clean_exit
  (op : operation) (w : world) (g : globals) (ctx : context) :
result (run_op op w g ctx) = Ret None <->
exists cmd, command op w g = Some cmd /\
            exited_cleanly w ctx cmd /\
            completion op w cmd = None.
Proof.
destruct (command op w g) as [cmd|] eqn:Hcmd.
- rewrite (run_table _ _ _ _ _ _ _ Hcmd). unfold exited_cleanly. split.
  + intros H. exists cmd. rewrite started_start_error.
    destruct (start_error w cmd) as [e|];
      [now destruct (is_ErrNotFound e)|].
    destruct (proc_race _ ctx); try discriminate.
    destruct (proc_wait _); [discriminate|].
    unfold result in H; simpl in H. injection H as H. now repeat split.
  + intros [cmd' [Heq [[Hs [Hr Hw]] Hc]]]. injection Heq as <-.
    apply started_start_error in Hs. now rewrite Hs, Hr, Hw, Hc.
- rewrite (run_unconfigured _ _ _ _ _ _ Hcmd). split; [discriminate|].
  now intros [cmd [Heq _]].
Qed.

(** X5. [ErrTimeout] is returned exactly when the context was done first
  and the kill returned nil: never for a process that exited by
  itself, never for a start failure. *)
Theorem timeout_iff_cancelled_and_killed
  (op : operation) (w : world) (g : globals) (ctx : context) :
result (run_op op w g ctx) = Ret (Some ErrTimeout) <->
exists cmd, command op w g = Some cmd /\
            started w cmd /\
            cancelled_first w ctx cmd /\
            proc_kill (process_of w cmd) = None.
Proof.
destruct (command op w g) as [cmd|] eqn:Hcmd.
- rewrite (run_table _ _ _ _ _ _ _ Hcmd). unfold cancelled_first. split.
  + intros H. exists cmd. rewrite started_start_error.
    destruct (start_error w cmd) as [e|].
    { unfold result in H; simpl in H.
      destruct (is_ErrNotFound e); [|discriminate].
      now destruct op. }
    destruct (proc_race _ ctx); try discriminate.
    * destruct (proc_kill _); [discriminate|]. now repeat split.
    * destruct (proc_wait _); [discriminate|].
      unfold result in H; simpl in H.
      destruct op as [file| |]; simpl in H; try discriminate.
      destruct (snd _); discriminate.
  + intros [cmd' [Heq [Hs [Hr Hk]]]]. injection Heq as <-.
    apply started_start_error in Hs. now rewrite Hs, Hr, Hk.
- rewrite (run_unconfigured _ _ _ _ _ _ Hcmd). split; [discriminate|].
  now intros [cmd [Heq _]].
Qed.

(** X6. [cmd.Process.Kill()] is only ever called on the started process
  of this run, and only after the context was done first. *)
Theorem kill_only_after_cancellation
  (op : operation) (w : world) (g : globals) (ctx : context) (cmd : Cmd) :
In (call_Kill cmd) (calls (run_op op w g ctx)) ->
command op w g = Some cmd /\ started w cmd /\ cancelled_first w ctx cmd.
Proof.
destruct (command op w g) as [cmd'|] eqn:Hcmd.
- rewrite (run_table _ _ _ _ _ _ _ Hcmd).
  unfold cancelled_first. rewrite started_start_error.
  destruct (start_error w cmd') as [e|] eqn:Hs.
  { simpl. intros [H|[]]. discriminate. }
  destruct (proc_race _ ctx) eqn:Hr; simpl.
  + intros [H|[H|[H|[]]]]; try discriminate.
    injection H as <-. now rewrite Hs, Hr.
  + destruct (proc_wait _); simpl; intros [H|[H|[]]]; discriminate.
  + intros [H|[H|[]]]; discriminate.
- rewrite (run_unconfigured _ _ _ _ _ _ Hcmd). intros [].
Qed.

(** X7. One run is one subprocess lifecycle: it makes no call at all, or
  it calls [Start] once on its command, then possibly [Wait], then
  possibly [Kill], each once and in this order. *)
Theorem one_lifecycle_per_run
  (op : operation) (w : world) (g : globals) (ctx : context) :
(command op w g = None /\ calls (run_op op w g ctx) = []) \/
exists cmd, command op w g = Some cmd /\
  (calls (run_op op w g ctx) = [call_Start cmd] \/
   calls (run_op op w g ctx) = [call_Start cmd; call_Wait cmd] \/
   calls (run_op op w g ctx) = [call_Start cmd; call_Wait cmd; call_Kill cmd]).
Proof.
destruct (command op w g) as [cmd|] eqn:Hcmd.
- right. exists cmd. split; [reflexivity|].
  rewrite (run_table _ _ _ _ _ _ _ Hcmd).
  destruct (start_error w cmd); [now left|].
  destruct (proc_race _ ctx); [now right; right| |now right; left].
  destruct (proc_wait _); now right; left.
- left. now rewrite (run_unconfigured _ _ _ _ _ _ Hcmd).
Qed.

(** X8. A run fails to return exactly when its process was started and
  neither the process exits nor the context is ever done (for example
  under [context.Background()] with a process that hangs). *)
Theorem blocks_iff_nothing_happens
  (op : operation) (w : world) (g : globals) (ctx : context) :
result (run_op op w g ctx) = Blocked <->
exists cmd, command op w g = Some cmd /\
            started w cmd /\
            proc_race (process_of w cmd) ctx = Pending.
Proof.
destruct (command op w g) as [cmd|] eqn:Hcmd.
- rewrite (run_table _ _ _ _ _ _ _ Hcmd). split.
  + intros H. exists cmd. rewrite started_start_error.
    destruct (start_error w cmd); [discriminate|].
    destruct (proc_race _ ctx); try discriminate; [|now repeat split].
    destruct (proc_wait _); discriminate.
  + intros [cmd' [Heq [Hs Hr]]]. injection Heq as <-.
    apply started_start_error in Hs. now rewrite Hs, Hr.
- rewrite (run_unconfigured _ _ _ _ _ _ Hcmd). split; [discriminate|].
  now intros [cmd [Heq _]].
Qed.

End Runs.

(** ** Probing, beyond the decode failure *)

Section ProbingMore.

Context {ProbeData : Type}.
Variable emptyProbeData : ProbeData.
Variable json_Unmarshal : string -> ProbeData -> ProbeData * option lib_error.

Local Abbreviation probe_run' := (probe_run emptyProbeData json_Unmarshal).
Local Abbreviation GetProbeDataOptions' :=
(GetProbeDataOptions ProbeData emptyProbeData json_Unmarshal).

Lemma cmd_Run_calls (w : world) (ctx : context) (cmd : Cmd) :
cmd_Run w ctx cmd = (result (cmd_Run w ctx cmd), [call_Run cmd]).
Proof.
unfold cmd_Run, result, bind, tell, ret, block.
destruct (Err cmd); [reflexivity|].
destruct (proc_start (process_of w cmd)); [reflexivity|].
now destruct (proc_race (process_of w cmd) ctx).
Qed.

(** [GetProbeDataOptions], by the outcome of [cmd.Run()]. *)
Lemma GetProbeDataOptions_table (w : world) (g : globals) (ctx : context)
  (file : string) (extra : list string) :
GetProbeDataOptions' w g ctx file extra =
(match result (cmd_Run w ctx (probe_options_command w g file extra)) with
 | Blocked => Blocked
 | Ret (Some e) =>
     Ret (None,
          Some (fmt_Errorf "error running ffprobe [%s] %w"
                  [arg_string
                     (stdErr_String w (probe_options_command w g file extra));
                   arg_error e]))
 | Ret None =>
     if negb (String.eqb
                (stdErr_String w (probe_options_command w g file extra)) "")
     then Ret (None,
               Some (fmt_Errorf "ffprobe error: %s"
                       [arg_string
                          (stdErr_String w
                             (probe_options_command w g file extra))]))
     else match json_Unmarshal
                  (outputBuf w (probe_options_command w g file extra))
                  emptyProbeData with
          | (data, Some e) =>
              Ret (Some data,
                   Some (fmt_Errorf "error unmarshalling output: %w"
                           [arg_error e]))
          | (data, None) => Ret (Some data, None)
          end
 end,
 [call_Run (probe_options_command w g file extra)]).
Proof.
set (cmd := probe_options_command w g file extra).
unfold GetProbeDataOptions. fold (probe_options_command w g file extra).
fold cmd. rewrite cmd_Run_calls. unfold bind.
destruct (result (cmd_Run w ctx cmd)) as [[e|]|]; try reflexivity.
destruct (negb (String.eqb (stdErr_String w cmd) "")); [reflexivity|].
destruct (json_Unmarshal (outputBuf w cmd) emptyProbeData) as [data [e|]];
  reflexivity.
Qed.

(** X9. A probe whose subprocess exits with status zero, with nothing
  captured from standard error, and whose output decodes, returns the
  decoded [ProbeData] and a nil error. *)
Theorem probe_success_returns_decoded_data
  (pc : probe_call) (w : world) (g : globals) (ctx : context)
  (file : string) (data : ProbeData) :
exit_status_zero pc w ctx (probe_command pc w g file) ->
stderr_empty pc w (probe_command pc w g file) ->
json_Unmarshal (outputBuf w (probe_command pc w g file)) emptyProbeData
= (data, None) ->
result (probe_run' pc w g ctx file) = Ret (Some data, None).
Proof.
set (cmd := probe_command pc w g file).
intros Hexit Hquiet Hjson. destruct pc as [|extra]; simpl in *.
- rewrite GetProbeDataContext_runner. fold cmd.
  rewrite runner_exit_clean by assumption.
  unfold result. simpl. now rewrite Hjson.
- rewrite GetProbeDataOptions_table. fold cmd. unfold result at 1. simpl.
  now rewrite Hexit, Hquiet, Hjson.
Qed.

(** X10. A probe returns a non-nil [ProbeData] exactly when the
  subprocess exited with status zero and nothing was captured from
  standard error; the data is what [json.Unmarshal] left, whether or
  not decoding failed. *)
Theorem data_returned_iff_process_succeeded
  (pc : probe_call) (w : world) (g : globals) (ctx : context)
  (file : string) :
(exists data err,
    result (probe_run' pc w g ctx file) = Ret (Some data, err)) <->
exit_status_zero pc w ctx (probe_command pc w g file) /\
stderr_empty pc w (probe_command pc w g file).
Proof.
set (cmd := probe_command pc w g file).
destruct pc as [|extra]; simpl in *.
- rewrite GetProbeDataContext_runner, process_runner_table. fold cmd.
  unfold exited_cleanly. rewrite started_start_error. split.
  + intros [data [err H]].
    destruct (start_error w cmd) as [e|];
      [now destruct (is_ErrNotFound e)|].
    destruct (proc_race _ ctx); try discriminate.
    destruct (proc_wait _); [discriminate|]. now repeat split.
  + intros [[Hs [Hr Hw]] _]. rewrite Hs, Hr, Hw.
    unfold result. simpl.
    destruct (json_Unmarshal (outputBuf w cmd) emptyProbeData)
      as [data [e|]]; now eexists; eexists.
- rewrite GetProbeDataOptions_table. fold cmd. unfold result at 1. simpl.
  split.
  + intros [data [err H]].
    destruct (result (cmd_Run w ctx cmd)) as [[e|]|]; try discriminate.
    split; [reflexivity|].
    destruct (String.eqb_spec (stdErr_String w cmd) "") as [Heq|Hne];
      [assumption|discriminate].
  + intros [Hrun Hquiet]. rewrite Hrun, Hquiet. simpl.
    destruct (json_Unmarshal (outputBuf w cmd) emptyProbeData)
      as [data [e|]]; now eexists; eexists.
Qed.

(** X11. When [cmd.Run()] fails (missing program, non-zero status,
  cancellation), [GetProbeDataOptions] returns no data and an error
  that wraps the cause together with the captured standard error. *)
Theorem run_failure_is_wrapped_with_stderr
  (w : world) (g : globals) (ctx : context)
  (file : string) (extra : list string) (e : lib_error) :
result (cmd_Run w ctx (probe_options_command w g file extra)) = Ret (Some e) ->
result (GetProbeDataOptions' w g ctx file extra)
= Ret (None,
       Some (fmt_Errorf "error running ffprobe [%s] %w"
               [arg_string
                  (stdErr_String w (probe_options_command w g file extra));
                arg_error e])).
Proof.
intros H. rewrite GetProbeDataOptions_table. unfold result at 1. simpl.
now rewrite H.
Qed.

(** X12. [GetProbeDataOptions] makes exactly one os/exec call, [Run], on
  a command whose arguments are the six fixed flags, then the extra
  options in the order given, then the file as the last argument. *)
Theorem probe_options_single_run
  (w : world) (g : globals) (ctx : context)
  (file : string) (extra : list string) :
calls (GetProbeDataOptions' w g ctx file extra)
= [call_Run (probe_options_command w g file extra)] /\
built_args (GetProbeDataOptions' w g ctx file extra)
= Some (probe_options_flags ++ extra ++ [file]) /\
program_of (GetProbeDataOptions' w g ctx file extra)
= Some (ffprobeBinPath g).
Proof.
rewrite GetProbeDataOptions_table.
unfold built_args, program_of, calls. simpl snd.
unfold probe_options_command. rewrite Args_exec_Command.
repeat split; reflexivity.
Qed.

(** X13. Every error [GetProbeDataOptions] returns is made by
  [fmt.Errorf]: it never returns [ErrTimeout] or [ErrFFProbeNotFound],
  not even when the context is done or the program is missing. *)
Theorem probe_options_errors_are_formatted
  (w : world) (g : globals) (ctx : context)
  (file : string) (extra : list string)
  (data : option ProbeData) (err : error) :
result (GetProbeDataOptions' w g ctx file extra) = Ret (data, Some err) ->
exists format args, err = fmt_Errorf format args.
Proof.
rewrite GetProbeDataOptions_table. unfold result at 1. simpl.
destruct (result (cmd_Run w ctx _)) as [[e|]|]; try discriminate.
- intros H. injection H as _ <-. now eexists; eexists.
- destruct (negb _).
  + intros H. injection H as _ <-. now eexists; eexists.
  + destruct (json_Unmarshal _ emptyProbeData) as [d [e|]];
      intros H; [|discriminate].
    injection H as _ <-. now eexists; eexists.
Qed.

End ProbingMore.

(** ** Output names, for every path *)

Lemma append_empty (s : string) : (s ++ "")%string = s.
Proof. induction s as [|c s IH]; simpl; [reflexivity|]. now rewrite IH. Qed.

(** What [ext_scan] returns is the tail of what it has read. *)
Lemma ext_scan_suffix (r acc : list ascii) :
  exists pre, rev r ++ acc = pre ++ ext_scan r acc.
Proof.
  revert acc. induction r as [|c r IH]; intros acc; simpl.
  - exists acc. now rewrite app_nil_r.
  - destruct (IsPathSeparator c).
    + exists ((rev r ++ [c]) ++ acc). now rewrite app_nil_r.
    + destruct (isDot c).
      * exists (rev r). now rewrite <- app_assoc.
      * destruct (IH (c :: acc)) as [pre H]. exists pre.
        now rewrite <- app_assoc.
Qed.

(** [filepath.Ext] returns a suffix of its argument. *)
Lemma Ext_suffix (s : string) : exists stem, s = (stem ++ Ext s)%string.
Proof.
  destruct (ext_scan_suffix (rev (chars s)) []) as [pre H].
  rewrite rev_involutive, app_nil_r in H.
  exists (of_chars pre). unfold Ext.
  rewrite <- of_chars_app, <- H. symmetry. apply of_chars_chars.
Qed.

Lemma ext_scan_no_dot (r acc : list ascii) :
  forallb (fun c => negb (isDot c)) r = true -> ext_scan r acc = [].
Proof.
  revert acc. induction r as [|c r IH]; intros acc H; simpl in *; [reflexivity|].
  apply andb_prop in H as [Hc H]. apply negb_true_iff in Hc. rewrite Hc.
  destruct (IsPathSeparator c); [reflexivity|]. now apply IH.
Qed.

Lemma Ext_no_dot (s : string) : no_dot s -> Ext s = ""%string.
Proof.
  unfold no_dot, Ext. intros H. rewrite ext_scan_no_dot; [reflexivity|].
  now rewrite forallb_rev.
Qed.

Lemma last_element_whole (l acc : list ascii) :
  no_separator l -> last_element l acc = rev l ++ acc.
Proof.
  unfold no_separator. revert acc.
  induction l as [|c l IH]; intros acc H; simpl in *; [reflexivity|].
  apply andb_prop in H as [Hc H]. apply negb_true_iff in Hc.
  rewrite Hc, IH by assumption. now rewrite <- app_assoc.
Qed.

(** A single path element is its own base name. *)
Lemma Base_single (name : string) :
  name <> ""%string -> no_separator (chars name) -> Base name = name.
Proof.
  intros Hne Hs. unfold Base. destruct name as [|c name]; [now elim Hne|].
  assert (Hs' : no_separator (rev (chars (String c name))))
    by (unfold no_separator in *; now rewrite forallb_rev).
  assert (Hstrip : strip_trailing (rev (chars (String c name)))
                   = rev (chars (String c name))).
  { destruct (rev (chars (String c name))) as [|a r]; [reflexivity|].
    unfold no_separator in Hs'. simpl in Hs'.
    apply andb_prop in Hs' as [Ha _]. apply negb_true_iff in Ha.
    simpl. now rewrite Ha. }
  rewrite Hstrip, last_element_whole, rev_involutive, app_nil_r by assumption.
  change (chars (String c name)) with (c :: chars name).
  change (c :: chars name) with (chars (String c name)).
  simpl. f_equal. apply of_chars_chars.
Qed.

(** X14. For every path, the two output names are the base name with its
    extension (whatever [filepath.Ext] finds, possibly nothing) replaced:
    the base name is [stem] followed by its extension, and the outputs
    are [stem] followed by [-%03d.jpeg] and by [.mp4]. *)
Theorem output_names_replace_the_extension (p : string) :
  exists stem,
    Base p = (stem ++ Ext (Base p))%string /\
    resolveOutputFrameFileFormat p = (stem ++ "-%03d.jpeg")%string /\
    resolveOutputMP4FileFormat p = (stem ++ ".mp4")%string.
Proof.
  destruct (Ext_suffix (Base p)) as [stem H]. exists stem.
  split; [assumption|].
  unfold resolveOutputFrameFileFormat, resolveOutputMP4FileFormat.
  rewrite H at 1 3. now rewrite TrimSuffix_app.
Qed.

(** X15. A path whose base name has no dot keeps its whole base name:
    the suffixes are appended to it. *)
Theorem output_names_without_extension (p : string) :
  no_dot (Base p) ->
  resolveOutputFrameFileFormat p = (Base p ++ "-%03d.jpeg")%string /\
  resolveOutputMP4FileFormat p = (Base p ++ ".mp4")%string.
Proof.
  intros H. unfold resolveOutputFrameFileFormat, resolveOutputMP4FileFormat.
  rewrite (Ext_no_dot _ H).
  rewrite <- (append_empty (Base p)) at 1 3.
  now rewrite TrimSuffix_app.
Qed.

(** X16. The output names never contain a path separator, whatever
    directory the input is in: the files are written to the working
    directory.  The one exception is a path made of separators only,
    whose names start with the root. *)
Theorem output_names_have_no_directory (p : string) :
  (Base p <> "/"%string ->
   no_separator (chars (resolveOutputFrameFileFormat p)) /\
   no_separator (chars (resolveOutputMP4FileFormat p))) /\
  (Base p = "/"%string ->
   resolveOutputFrameFileFormat p = "/-%03d.jpeg"%string /\
   resolveOutputMP4FileFormat p = "/.mp4"%string).
Proof.
  split.
  - intros Hroot.
    destruct (Base_element p) as [H|H]; [contradiction|].
    destruct (Ext_suffix (Base p)) as [stem Hstem].
    unfold resolveOutputFrameFileFormat, resolveOutputMP4FileFormat.
    rewrite Hstem at 1 3. rewrite TrimSuffix_app.
    unfold no_separator in *. rewrite Hstem, chars_app, forallb_app in H.
    apply andb_prop in H as [H _].
    rewrite !chars_app, !forallb_app, H. now split.
  - intros H. unfold resolveOutputFrameFileFormat, resolveOutputMP4FileFormat.
    now rewrite H.
Qed.

(** X17. Inputs that share a stem collide: whatever their directories
    and extensions, they are given the same frame pattern and the same
    conversion output. *)
Theorem same_stem_same_output (dir1 dir2 stem ext1 ext2 : string) :
  no_separator (chars stem) ->
  no_separator (chars ext1) -> no_dot ext1 ->
  no_separator (chars ext2) -> no_dot ext2 ->
  resolveOutputFrameFileFormat (dir1 ++ "/" ++ stem ++ "." ++ ext1)
  = resolveOutputFrameFileFormat (dir2 ++ "/" ++ stem ++ "." ++ ext2) /\
  resolveOutputMP4FileFormat (dir1 ++ "/" ++ stem ++ "." ++ ext1)
  = resolveOutputMP4FileFormat (dir2 ++ "/" ++ stem ++ "." ++ ext2).
Proof.
  intros Hstem Hs1 Hd1 Hs2 Hd2.
  destruct (output_names_of_joined_path dir1 stem ext1) as [F1 M1];
    try assumption.
  destruct (output_names_of_joined_path dir2 stem ext2) as [F2 M2];
    try assumption.
  now rewrite F1, F2, M1, M2.
Qed.

(** X18. Converting a file of the working directory that is already
    named [stem.mp4]: the output argument is the input itself. *)
Theorem conversion_of_mp4_targets_its_input
    (w : world) (g : globals) (ctx : context) (opt : MP4ConvertOption)
    (stem : string) :
  mp4ConvertOption g = Some opt ->
  filePath opt = (stem ++ ".mp4")%string ->
  no_separator (chars stem) ->
  built_args (ConvertToMP4Context w g ctx)
  = Some (["-i"; filePath opt; filePath opt]
            ++ (if Overwrite opt then ["-y"] else [])).
Proof.
  intros Hopt Hpath Hstem.
  rewrite (ConvertToMP4Context_built_args _ _ _ _ Hopt).
  unfold spec_conversion_shape, resolveOutputMP4FileFormat.
  assert (Hbase : Base (filePath opt) = (stem ++ "." ++ "mp4")%string).
  { rewrite Hpath. apply Base_single.
    - destruct stem; discriminate.
    - unfold no_separator in *. rewrite chars_app, forallb_app, Hstem.
      reflexivity. }
  rewrite Hbase, strip_extension by reflexivity.
  now rewrite Hpath.
Qed.

(** ** Program names *)

Section Programs.

Context {ProbeData : Type}.
Variable emptyProbeData : ProbeData.
Variable json_Unmarshal : string -> ProbeData -> ProbeData * option lib_error.

Local Abbreviation run_op := (run emptyProbeData json_Unmarshal).

(** A configured run starts with a call on its command. *)
Lemma run_program (op : operation) (w : world) (g : globals) (ctx : context)
  (cmd : Cmd) :
command op w g = Some cmd ->
program_of (run_op op w g ctx) = hd_error (Args cmd).
Proof.
intros Hcmd. rewrite (run_table _ _ _ _ _ _ _ Hcmd). unfold program_of.
destruct (start_error w cmd); [reflexivity|].
destruct (proc_race _ ctx); try reflexivity.
now destruct (proc_wait _).
Qed.

Lemma run_built_args (op : operation) (w : world) (g : globals) (ctx : context)
  (cmd : Cmd) :
command op w g = Some cmd ->
built_args (run_op op w g ctx) = Some (tl (Args cmd)).
Proof.
intros Hcmd. rewrite (run_table _ _ _ _ _ _ _ Hcmd). unfold built_args.
destruct (start_error w cmd); [reflexivity|].
destruct (proc_race _ ctx); try reflexivity.
now destruct (proc_wait _).
Qed.

(** X19. After the two setters, in either order, frame extraction and
  conversion run the program given to [SetFFMPEGBinPath] and the probe
  runs the one given to [SetFFProbeBinPath]; the option slots are left
  as they were. *)
Theorem setters_select_the_program
  (op : operation) (w : world) (g : globals) (ctx : context)
  (ffmpeg ffprobe : string) (cmd : Cmd) :
command op w g = Some cmd ->
SetFFMPEGBinPath ffmpeg (SetFFProbeBinPath ffprobe g)
= SetFFProbeBinPath ffprobe (SetFFMPEGBinPath ffmpeg g) /\
program_of
  (run_op op w (SetFFMPEGBinPath ffmpeg (SetFFProbeBinPath ffprobe g)) ctx)
= Some (match op with
        | probe _ => ffprobe
        | extraction => ffmpeg
        | conversion => ffmpeg
        end) /\
built_args
  (run_op op w (SetFFMPEGBinPath ffmpeg (SetFFProbeBinPath ffprobe g)) ctx)
= Some (tl (Args cmd)).
Proof.
intros Hcmd. split; [reflexivity|].
set (g' := SetFFMPEGBinPath ffmpeg (SetFFProbeBinPath ffprobe g)).
destruct op as [file| |]; simpl in Hcmd.
- injection Hcmd as <-.
  assert (H' : command (probe file) w g'
               = Some (exec_Command w ffprobe
                         ["-v"; "quiet"; "-print_format"; "json";
                          "-show_format"; "-show_streams"; file]))
    by reflexivity.
  rewrite (run_program _ _ _ _ _ H'), (run_built_args _ _ _ _ _ H').
  now rewrite !Args_exec_Command.
- destruct (extractingImageOption g) as [opt|] eqn:Hopt; [|discriminate].
  injection Hcmd as <-.
  assert (H' : command extraction w g'
               = Some (exec_Command w ffmpeg (spec_extraction_shape opt))).
  { simpl. now rewrite Hopt. }
  rewrite (run_program _ _ _ _ _ H'), (run_built_args _ _ _ _ _ H').
  now rewrite !Args_exec_Command.
- destruct (mp4ConvertOption g) as [opt|] eqn:Hopt; [|discriminate].
  injection Hcmd as <-.
  assert (H' : command conversion w g'
               = Some (exec_Command w ffmpeg (spec_conversion_shape opt))).
  { simpl. now rewrite Hopt. }
  rewrite (run_program _ _ _ _ _ H'), (run_built_args _ _ _ _ _ H').
  now rewrite !Args_exec_Command.
Qed.

End Programs.

(** ** The revision with the option as an argument *)

Lemma OptionArgument_runner (w : world) (g : globals) (ctx : context)
    (opt : ExtractingImagesOption) :
  OptionArgument.ExtractingImagesContext w g ctx (Some opt) =
  OptionArgument.Done
    (process_runner w ctx
       (exec_Command w (ffmpegBinPath g) (spec_extraction_shape opt))
       ErrFFProbeNotFound Some (ret None)).
Proof.
  unfold OptionArgument.ExtractingImagesContext.
  unfold spec_extraction_shape, spec_resize_argument, Sprintf_dxd.
  destruct (OutputWidth opt), (OutputHeight opt); reflexivity.
Qed.

(** X20. The revision of [ExtractingImagesContext] that takes the option
    as an argument panics on a nil option and never reads the global
    slot; with a non-nil option it makes the same calls as the current
    revision configured with that option and returns the same result,
    except that it answers [exec.ErrNotFound] with the ffprobe sentinel
    where the current revision uses the ffmpeg one. *)
Theorem option_argument_revision_agrees
    (w : world) (g : globals) (ctx : context)
    (opt : ExtractingImagesOption) (slot : option ExtractingImagesOption) :
  OptionArgument.ExtractingImagesContext w g ctx None = OptionArgument.Panic /\
  OptionArgument.ExtractingImagesContext w (NewExtractingImagesOption slot g)
    ctx (Some opt)
  = OptionArgument.ExtractingImagesContext w g ctx (Some opt) /\
  exists m,
    OptionArgument.ExtractingImagesContext w g ctx (Some opt)
    = OptionArgument.Done m /\
    calls m
    = calls (ExtractingImagesContext w
               (NewExtractingImagesOption (Some opt) g) ctx) /\
    result m
    = match result (ExtractingImagesContext w
                      (NewExtractingImagesOption (Some opt) g) ctx) with
      | Ret (Some ErrFFMPEGNotFound) => Ret (Some ErrFFProbeNotFound)
      | r => r
      end.
Proof.
  split; [reflexivity|]. split; [reflexivity|].
  rewrite OptionArgument_runner. eexists. split; [reflexivity|].
  rewrite (ExtractingImagesContext_runner w
             (NewExtractingImagesOption (Some opt) g) ctx opt eq_refl).
  change (ffmpegBinPath (NewExtractingImagesOption (Some opt) g))
    with (ffmpegBinPath g).
  rewrite !process_runner_table.
  destruct (start_error w _) as [e|].
  { destruct (is_ErrNotFound e); split; reflexivity. }
  destruct (proc_race _ ctx).
  - destruct (proc_kill _); split; reflexivity.
  - destruct (proc_wait _); split; reflexivity.
  - split; reflexivity.
Qed.


(** ** Witnesses of the further properties *)

Lemma start_failure_ends_the_run_witness :
  command conversion (installed denied_proc) intro_conversion
  = Some intro_conversion_cmd /\
  start_error (installed denied_proc) intro_conversion_cmd
  = Some (os_error "fork/exec /usr/bin/ffmpeg: permission denied") /\
  run (@nil string) toy_Unmarshal conversion (installed denied_proc)
    intro_conversion five_seconds
  = (Ret (Some (lib (os_error "fork/exec /usr/bin/ffmpeg: permission denied"))),
     [call_Start intro_conversion_cmd]).
Proof.
  split; [reflexivity|]. split; [reflexivity|].
  apply (start_failure_ends_the_run (@nil string) toy_Unmarshal conversion
           (installed denied_proc) intro_conversion five_seconds
           intro_conversion_cmd
           (os_error "fork/exec /usr/bin/ffmpeg: permission denied"));
    reflexivity.
Defined.


Lemma exit_error_is_returned_witness :
  command extraction (installed failing_proc) intro_extraction
  = Some intro_extraction_cmd /\
  started (installed failing_proc) intro_extraction_cmd /\
  proc_race (process_of (installed failing_proc) intro_extraction_cmd)
    five_seconds = Completed /\
  proc_wait (process_of (installed failing_proc) intro_extraction_cmd)
  = Some (exec_ExitError 1) /\
  run (@nil string) toy_Unmarshal extraction (installed failing_proc)
    intro_extraction five_seconds
  = (Ret (Some (lib (exec_ExitError 1))),
     [call_Start intro_extraction_cmd; call_Wait intro_extraction_cmd]).
Proof.
  split; [reflexivity|]. split; [split; reflexivity|].
  split; [reflexivity|]. split; [reflexivity|].
  apply (exit_error_is_returned (@nil string) toy_Unmarshal extraction
           (installed failing_proc) intro_extraction five_seconds
           intro_extraction_cmd (exec_ExitError 1));
    [reflexivity | split; reflexivity | reflexivity | reflexivity].
Defined.

Lemma kill_only_after_cancellation_witness :
  In (call_Kill intro_extraction_cmd)
     (calls (run (@nil string) toy_Unmarshal extraction (installed slow_proc)
               intro_extraction five_seconds)) /\
  command extraction (installed slow_proc) intro_extraction
  = Some intro_extraction_cmd /\
  started (installed slow_proc) intro_extraction_cmd /\
  cancelled_first (installed slow_proc) five_seconds intro_extraction_cmd.
Proof.
  assert (H : In (call_Kill intro_extraction_cmd)
                 (calls (run (@nil string) toy_Unmarshal extraction
                           (installed slow_proc) intro_extraction five_seconds)))
    by (simpl; right; right; left; reflexivity).
  split; [exact H|].
  exact (kill_only_after_cancellation (@nil string) toy_Unmarshal extraction
           (installed slow_proc) intro_extraction five_seconds
           intro_extraction_cmd H).
Defined.

Lemma probe_success_returns_decoded_data_witness :
  exit_status_zero by_context (installed empty_object_proc) five_seconds
    (probe_command by_context (installed empty_object_proc) init "intro.mp4") /\
  stderr_empty by_context (installed empty_object_proc)
    (probe_command by_context (installed empty_object_proc) init "intro.mp4") /\
  toy_Unmarshal
    (outputBuf (installed empty_object_proc)
       (probe_command by_context (installed empty_object_proc) init "intro.mp4"))
    [] = ([], None) /\
  result (probe_run (@nil string) toy_Unmarshal by_context
            (installed empty_object_proc) init five_seconds "intro.mp4")
  = Ret (Some [], None).
Proof.
  split; [repeat split|]. split; [exact I|]. split; [reflexivity|].
  apply (probe_success_returns_decoded_data (@nil string) toy_Unmarshal
           by_context (installed empty_object_proc) init five_seconds
           "intro.mp4" []);
    [repeat split | exact I | reflexivity].
Defined.

Lemma run_failure_is_wrapped_with_stderr_witness :
  result (cmd_Run (installed failing_proc) five_seconds
            (probe_options_command (installed failing_proc) init "intro.mp4" []))
  = Ret (Some (exec_ExitError 1)) /\
  result (GetProbeDataOptions (list string) [] toy_Unmarshal
            (installed failing_proc) init five_seconds "intro.mp4" [])
  = Ret (None,
         Some (fmt_Errorf "error running ffprobe [%s] %w"
                 [arg_string "intro.mp4: No such file or directory";
                  arg_error (exec_ExitError 1)])).
Proof.
  split; [reflexivity|].
  apply (run_failure_is_wrapped_with_stderr (@nil string) toy_Unmarshal
           (installed failing_proc) init five_seconds "intro.mp4" []
           (exec_ExitError 1)).
  reflexivity.
Defined.

Lemma probe_options_errors_are_formatted_witness :
  result (GetProbeDataOptions (list string) [] toy_Unmarshal
            (bare hung_proc) init five_seconds "intro.mp4" [])
  = Ret (None,
         Some (fmt_Errorf "error running ffprobe [%s] %w"
                 [arg_string ""; arg_error (exec_Error "ffprobe" exec_ErrNotFound)])) /\
  exists format args,
    fmt_Errorf "error running ffprobe [%s] %w"
      [arg_string ""; arg_error (exec_Error "ffprobe" exec_ErrNotFound)]
    = fmt_Errorf format args.
Proof.
  split; [reflexivity|].
  apply (probe_options_errors_are_formatted (@nil string) toy_Unmarshal
           (bare hung_proc) init five_seconds "intro.mp4" [] None).
  reflexivity.
Defined.

Lemma output_names_without_extension_witness :
  no_dot (Base "clips/target") /\
  resolveOutputFrameFileFormat "clips/target" = "target-%03d.jpeg"%string /\
  resolveOutputMP4FileFormat "clips/target" = "target.mp4"%string.
Proof.
  split; [reflexivity|].
  apply (output_names_without_extension "clips/target"). reflexivity.
Defined.

Lemma output_names_have_no_directory_witness :
  Base "/videos/intro.mp4" <> "/"%string /\
  no_separator (chars (resolveOutputFrameFileFormat "/videos/intro.mp4")) /\
  no_separator (chars (resolveOutputMP4FileFormat "/videos/intro.mp4")).
Proof.
  assert (H : Base "/videos/intro.mp4" <> "/"%string) by discriminate.
  split; [exact H|].
  exact (proj1 (output_names_have_no_directory "/videos/intro.mp4") H).
Defined.

Lemma same_stem_same_output_witness :
  no_separator (chars "intro") /\
  no_separator (chars "mov") /\ no_dot "mov" /\
  no_separator (chars "avi") /\ no_dot "avi" /\
  resolveOutputFrameFileFormat ("a" ++ "/" ++ "intro" ++ "." ++ "mov")
  = resolveOutputFrameFileFormat ("b" ++ "/" ++ "intro" ++ "." ++ "avi") /\
  resolveOutputMP4FileFormat ("a" ++ "/" ++ "intro" ++ "." ++ "mov")
  = resolveOutputMP4FileFormat ("b" ++ "/" ++ "intro" ++ "." ++ "avi").
Proof.
  do 5 (split; [reflexivity|]).
  apply (same_stem_same_output "a" "b" "intro" "mov" "avi"); reflexivity.
Defined.

Lemma conversion_of_mp4_targets_its_input_witness :
  mp4ConvertOption (NewMP4ConvertOption (Some already_mp4) init)
  = Some already_mp4 /\
  filePath already_mp4 = ("intro" ++ ".mp4")%string /\
  no_separator (chars "intro") /\
  built_args (ConvertToMP4Context quiet_world
                (NewMP4ConvertOption (Some already_mp4) init) five_seconds)
  = Some ["-i"; "intro.mp4"; "intro.mp4"; "-y"]%string.
Proof.
  do 3 (split; [reflexivity|]).
  apply (conversion_of_mp4_targets_its_input quiet_world
           (NewMP4ConvertOption (Some already_mp4) init) five_seconds
           already_mp4 "intro");
    reflexivity.
Defined.

Lemma setters_select_the_program_witness :
  command conversion quiet_world intro_conversion = Some intro_conversion_cmd /\
  program_of
    (run (@nil string) toy_Unmarshal conversion quiet_world
       (SetFFMPEGBinPath "/opt/ffmpeg/bin/ffmpeg"
          (SetFFProbeBinPath "/opt/ffmpeg/bin/ffprobe" intro_conversion))
       five_seconds)
  = Some "/opt/ffmpeg/bin/ffmpeg"%string.
Proof.
  split; [reflexivity|].
  exact (proj1 (proj2 (setters_select_the_program (@nil string) toy_Unmarshal
                         conversion quiet_world intro_conversion five_seconds
                         "/opt/ffmpeg/bin/ffmpeg" "/opt/ffmpeg/bin/ffprobe"
                         intro_conversion_cmd eq_refl))).
Defined.
